(** * SMBIOS type 0, BIOS Information (DSP0134 7.1)

    A shallow embedding of [pkg/smbios/type0_bios_information.go]: the
    decoder entry point [NewBIOSInformation], the ROM size computation
    [GetROMSizeBytes], the text summary [BIOSInformation.String] and the
    three flag renderers, followed by the properties the specification
    states about them. *)

From Stdlib Require Import ZArith List String Ascii Bool Lia DecimalString.
From Stdlib Require Import Sorted.
Import ListNotations.

Local Open Scope string_scope.
Local Open Scope list_scope.
Local Open Scope Z_scope.

(** String concatenation, as Go's [+] on strings and the literal parts of a
    format string. *)
Infix "+++" := String.append (right associativity, at level 60).

(** ** Go's integer types

    The fixed-width fields ([uint8], [uint16], [uint64]) are carried as [Z];
    a range predicate states that a value fits its type.  Go's [uint] and [int] are 32 or 64
    bits wide depending on the target; the width is a parameter of every
    function that computes in them, and the wrap-around of each operation is
    written out. *)

Inductive UintWidth : Set := W32 | W64.

Definition UintSize (a : UintWidth) : Z :=
  match a with W32 => 32 | W64 => 64 end.

(** Conversion to, and arithmetic in, [uint]: reduction modulo [2^UintSize]. *)
Definition uint (a : UintWidth) (z : Z) : Z := z mod 2 ^ UintSize a.

(** Conversion to, and arithmetic in, [int]: two's complement. *)
Definition int (a : UintWidth) (z : Z) : Z :=
  (z + 2 ^ (UintSize a - 1)) mod 2 ^ UintSize a - 2 ^ (UintSize a - 1).

Definition is_uint8 (z : Z) : Prop := 0 <= z < 2 ^ 8.
Definition is_uint16 (z : Z) : Prop := 0 <= z < 2 ^ 16.

(** ** The parts of [fmt] and [strings] the file uses *)

(** The tab, newline and double-quote escapes of Go's string literals. *)
Definition tab : string := String (ascii_of_nat 9) EmptyString.
Definition nl : string := String (ascii_of_nat 10) EmptyString.
Definition dquote : string := String (ascii_of_nat 34) EmptyString.

Module Fmt.

(** The verb [%d]. *)
Definition d (z : Z) : string := NilZero.string_of_int (Z.to_int z).

Definition upper_hex_digit (n : N) : ascii :=
  match n with
  | 0 => "0" | 1 => "1" | 2 => "2" | 3 => "3" | 4 => "4" | 5 => "5"
  | 6 => "6" | 7 => "7" | 8 => "8" | 9 => "9" | 10 => "A" | 11 => "B"
  | 12 => "C" | 13 => "D" | 14 => "E" | _ => "F"
  end%N%char.

(** The hexadecimal digits of [n], most significant first, [fuel] bounding
    their number. *)
Fixpoint upper_hex (fuel : nat) (n : N) (acc : string) : string :=
  match fuel with
  | O => acc
  | S fuel' =>
      let acc' := String (upper_hex_digit (N.modulo n 16)) acc in
      if (n <? 16)%N then acc' else upper_hex fuel' (N.div n 16) acc'
  end.

Fixpoint zeros (n : nat) : string :=
  match n with O => EmptyString | S n' => String "0" (zeros n') end.

(** The verb [%04X] on an unsigned operand: upper-case hexadecimal,
    padded with zeros on the left to a width of four. *)
Definition X04 (z : Z) : string :=
  let digits := upper_hex (S (N.to_nat (N.log2 (Z.to_N z)))) (Z.to_N z) EmptyString in
  zeros (4 - String.length digits) +++ digits.

(** [strings.Join]. *)
Definition Join (elems : list string) (sep : string) : string :=
  String.concat sep elems.

End Fmt.

(** ** The generic table

    Modelled from the spec: the types [Header] and [Table] and the method
    [Table.Len] are declared in files of the package that are not part of
    the sources at hand.  Following sections 3 and 6 of the specification a
    raw record carries a type tag, a declared length, a handle, the bytes
    of its structured part and its string pool, and its length is the
    count of meaningful bytes of the structured part. *)

Record Header : Set := mkHeader {
  Type' : Z;    (* TableType, one byte *)
  Length : Z;   (* uint8 *)
  Handle : Z    (* uint16 *)
}.

Record Table : Set := mkTable {
  Table_Header : Header;
  data : list Byte.byte;
  strings : list string
}.

Definition Len (t : Table) : Z := Z.of_nat (List.length (data t)).

Definition TableTypeBIOSInformation : Z := 0.

(** ** The decoded record *)

Record BIOSInformation : Set := mkBIOSInformation {
  BIOSInformation_Table : Table;
  Vendor : string;                                (* 04h *)
  Version : string;                               (* 05h *)
  StartingAddressSegment : Z;                     (* 06h, uint16 *)
  ReleaseDate : string;                           (* 08h *)
  ROMSize : Z;                                    (* 09h, uint8 *)
  Characteristics : Z;                            (* 0Ah, uint64 *)
  CharacteristicsExt1 : Z;                        (* 12h, uint8 *)
  CharacteristicsExt2 : Z;                        (* 13h, uint8 *)
  SystemBIOSMajorRelease : Z;                     (* 14h, uint8 *)
  SystemBIOSMinorRelease : Z;                     (* 15h, uint8 *)
  EmbeddedControllerFirmwareMajorRelease : Z;     (* 16h, uint8 *)
  EmbeddedControllerFirmwareMinorRelease : Z;     (* 17h, uint8 *)
  ExtendedROMSize : Z                             (* 18h, uint16 *)
}.

(** The method [Len] promoted from the embedded [Table]. *)
Definition bi_Len (bi : BIOSInformation) : Z := Len (BIOSInformation_Table bi).

(** ** [GetROMSizeBytes] *)

Definition GetROMSizeBytes (a : UintWidth) (bi : BIOSInformation) : Z :=
  if negb (ROMSize bi =? 0xff) then
    uint a (65536 * uint a (uint a (ROMSize bi) + 1))
  else
    let extSize :=
      if bi_Len bi >=? 0x1a then uint a (ExtendedROMSize bi)
      else 0x10 (* 16 MB *) in
    let unit := Z.shiftr extSize 14 in
    let multiplier := uint a 1 in
    let multiplier :=
      if unit =? 0 then 1024 * 1024
      else if unit =? 1 then 1024 * 1024 * 1024
      else multiplier in
    uint a (Z.land extSize 0x3fff * multiplier).

(** ** The flag renderers *)

(** The test [v&c != 0]. *)
Definition isset (v c : Z) : bool := negb (Z.land v c =? 0).

(** The statement [if cond { lines = append(lines, s) }]. *)
Definition append_if (cond : bool) (lines : list string) (s : string)
  : list string :=
  if cond then lines ++ [s] else lines.

(** The renderer of the specification (4.2, 9): one loop over an ordered
    table of bit positions and descriptions, keeping the descriptions of
    the bits set in [v]. *)
Definition render (table : list (Z * string)) (v : Z) : list string :=
  map snd (filter (fun e => Z.testbit v (fst e)) table).

(** Every line of a flag report is its description behind two tabs. *)
Definition indent (description : string) : string :=
  tab +++ tab +++ description.

(** [BIOSCharacteristics] fields, DSP0134 7.1.1. *)

Definition BIOSCharacteristicsReserved : Z := Z.shiftl 1 0.
Definition BIOSCharacteristicsReserved2 : Z := Z.shiftl 1 1.
Definition BIOSCharacteristicsUnknown : Z := Z.shiftl 1 2.
Definition BIOSCharacteristicsBIOSCharacteristicsAreNotSupported : Z := Z.shiftl 1 3.
Definition BIOSCharacteristicsISAIsSupported : Z := Z.shiftl 1 4.
Definition BIOSCharacteristicsMCAIsSupported : Z := Z.shiftl 1 5.
Definition BIOSCharacteristicsEISAIsSupported : Z := Z.shiftl 1 6.
Definition BIOSCharacteristicsPCIIsSupported : Z := Z.shiftl 1 7.
Definition BIOSCharacteristicsPCCardPCMCIAIsSupported : Z := Z.shiftl 1 8.
Definition BIOSCharacteristicsPlugAndPlayIsSupported : Z := Z.shiftl 1 9.
Definition BIOSCharacteristicsAPMIsSupported : Z := Z.shiftl 1 10.
Definition BIOSCharacteristicsBIOSIsUpgradeableFlash : Z := Z.shiftl 1 11.
Definition BIOSCharacteristicsBIOSShadowingIsAllowed : Z := Z.shiftl 1 12.
Definition BIOSCharacteristicsVLVESAIsSupported : Z := Z.shiftl 1 13.
Definition BIOSCharacteristicsESCDSupportIsAvailable : Z := Z.shiftl 1 14.
Definition BIOSCharacteristicsBootFromCDIsSupported : Z := Z.shiftl 1 15.
Definition BIOSCharacteristicsSelectableBootIsSupported : Z := Z.shiftl 1 16.
Definition BIOSCharacteristicsBIOSROMIsSocketed : Z := Z.shiftl 1 17.
Definition BIOSCharacteristicsBootFromPCCardPCMCIAIsSupported : Z := Z.shiftl 1 18.
Definition BIOSCharacteristicsEDDSpecificationIsSupported : Z := Z.shiftl 1 19.
Definition BIOSCharacteristicsInt13hJapaneseFloppyForNEC980012MB351KBytessector360RPMIsSupported : Z := Z.shiftl 1 20.
Definition BIOSCharacteristicsInt13hJapaneseFloppyForToshiba12MB35360RPMIsSupported : Z := Z.shiftl 1 21.
Definition BIOSCharacteristicsInt13h525360KBFloppyServicesAreSupported : Z := Z.shiftl 1 22.
Definition BIOSCharacteristicsInt13h52512MBFloppyServicesAreSupported : Z := Z.shiftl 1 23.
Definition BIOSCharacteristicsInt13h35720KBFloppyServicesAreSupported : Z := Z.shiftl 1 24.
Definition BIOSCharacteristicsInt13h35288MBFloppyServicesAreSupported : Z := Z.shiftl 1 25.
Definition BIOSCharacteristicsInt5hPrintScreenServiceIsSupported : Z := Z.shiftl 1 26.
Definition BIOSCharacteristicsInt9h8042KeyboardServicesAreSupported : Z := Z.shiftl 1 27.
Definition BIOSCharacteristicsInt14hSerialServicesAreSupported : Z := Z.shiftl 1 28.
Definition BIOSCharacteristicsInt17hPrinterServicesAreSupported : Z := Z.shiftl 1 29.
Definition BIOSCharacteristicsInt10hCGAMonoVideoServicesAreSupported : Z := Z.shiftl 1 30.
Definition BIOSCharacteristicsNECPC98 : Z := Z.shiftl 1 31.

(** The slice [lines] that [BIOSCharacteristics.String] builds. *)
Definition BIOSCharacteristics_lines (v : Z) : list string :=
  let lines := [] in
  let lines := append_if (isset v BIOSCharacteristicsReserved) lines
    (tab +++ tab +++ "Reserved") in
  let lines := append_if (isset v BIOSCharacteristicsReserved2) lines
    (tab +++ tab +++ "Reserved") in
  let lines := append_if (isset v BIOSCharacteristicsUnknown) lines
    (tab +++ tab +++ "Unknown") in
  let lines := append_if (isset v BIOSCharacteristicsBIOSCharacteristicsAreNotSupported) lines
    (tab +++ tab +++ "BIOS characteristics not supported") in
  let lines := append_if (isset v BIOSCharacteristicsISAIsSupported) lines
    (tab +++ tab +++ "ISA is supported") in
  let lines := append_if (isset v BIOSCharacteristicsMCAIsSupported) lines
    (tab +++ tab +++ "MCA is supported") in
  let lines := append_if (isset v BIOSCharacteristicsEISAIsSupported) lines
    (tab +++ tab +++ "EISA is supported") in
  let lines := append_if (isset v BIOSCharacteristicsPCIIsSupported) lines
    (tab +++ tab +++ "PCI is supported") in
  let lines := append_if (isset v BIOSCharacteristicsPCCardPCMCIAIsSupported) lines
    (tab +++ tab +++ "PC Card (PCMCIA) is supported") in
  let lines := append_if (isset v BIOSCharacteristicsPlugAndPlayIsSupported) lines
    (tab +++ tab +++ "PNP is supported") in
  let lines := append_if (isset v BIOSCharacteristicsAPMIsSupported) lines
    (tab +++ tab +++ "APM is supported") in
  let lines := append_if (isset v BIOSCharacteristicsBIOSIsUpgradeableFlash) lines
    (tab +++ tab +++ "BIOS is upgradeable") in
  let lines := append_if (isset v BIOSCharacteristicsBIOSShadowingIsAllowed) lines
    (tab +++ tab +++ "BIOS shadowing is allowed") in
  let lines := append_if (isset v BIOSCharacteristicsVLVESAIsSupported) lines
    (tab +++ tab +++ "VLB is supported") in
  let lines := append_if (isset v BIOSCharacteristicsESCDSupportIsAvailable) lines
    (tab +++ tab +++ "ESCD support is available") in
  let lines := append_if (isset v BIOSCharacteristicsBootFromCDIsSupported) lines
    (tab +++ tab +++ "Boot from CD is supported") in
  let lines := append_if (isset v BIOSCharacteristicsSelectableBootIsSupported) lines
    (tab +++ tab +++ "Selectable boot is supported") in
  let lines := append_if (isset v BIOSCharacteristicsBIOSROMIsSocketed) lines
    (tab +++ tab +++ "BIOS ROM is socketed") in
  let lines := append_if (isset v BIOSCharacteristicsBootFromPCCardPCMCIAIsSupported) lines
    (tab +++ tab +++ "Boot from PC Card (PCMCIA) is supported") in
  let lines := append_if (isset v BIOSCharacteristicsEDDSpecificationIsSupported) lines
    (tab +++ tab +++ "EDD is supported") in
  let lines := append_if (isset v BIOSCharacteristicsInt13hJapaneseFloppyForNEC980012MB351KBytessector360RPMIsSupported) lines
    (tab +++ tab +++ "Japanese floppy for NEC 9800 1.2 MB is supported (int 13h)") in
  let lines := append_if (isset v BIOSCharacteristicsInt13hJapaneseFloppyForToshiba12MB35360RPMIsSupported) lines
    (tab +++ tab +++ "Japanese floppy for Toshiba 1.2 MB is supported (int 13h)") in
  let lines := append_if (isset v BIOSCharacteristicsInt13h525360KBFloppyServicesAreSupported) lines
    (tab +++ tab +++ "5.25" +++ dquote +++ "/360 kB floppy services are supported (int 13h)") in
  let lines := append_if (isset v BIOSCharacteristicsInt13h52512MBFloppyServicesAreSupported) lines
    (tab +++ tab +++ "5.25" +++ dquote +++ "/1.2 MB floppy services are supported (int 13h)") in
  let lines := append_if (isset v BIOSCharacteristicsInt13h35720KBFloppyServicesAreSupported) lines
    (tab +++ tab +++ "3.5" +++ dquote +++ "/720 kB floppy services are supported (int 13h)") in
  let lines := append_if (isset v BIOSCharacteristicsInt13h35288MBFloppyServicesAreSupported) lines
    (tab +++ tab +++ "3.5" +++ dquote +++ "/2.88 MB floppy services are supported (int 13h)") in
  let lines := append_if (isset v BIOSCharacteristicsInt5hPrintScreenServiceIsSupported) lines
    (tab +++ tab +++ "Print screen service is supported (int 5h)") in
  let lines := append_if (isset v BIOSCharacteristicsInt9h8042KeyboardServicesAreSupported) lines
    (tab +++ tab +++ "8042 keyboard services are supported (int 9h)") in
  let lines := append_if (isset v BIOSCharacteristicsInt14hSerialServicesAreSupported) lines
    (tab +++ tab +++ "Serial services are supported (int 14h)") in
  let lines := append_if (isset v BIOSCharacteristicsInt17hPrinterServicesAreSupported) lines
    (tab +++ tab +++ "Printer services are supported (int 17h)") in
  let lines := append_if (isset v BIOSCharacteristicsInt10hCGAMonoVideoServicesAreSupported) lines
    (tab +++ tab +++ "CGA/mono video services are supported (int 10h)") in
  let lines := append_if (isset v BIOSCharacteristicsNECPC98) lines
    (tab +++ tab +++ "NEC PC-98") in
  lines.

Definition BIOSCharacteristics_String (v : Z) : string :=
  Fmt.Join (BIOSCharacteristics_lines v) nl.

(** The table of [BIOSCharacteristics] as the specification describes it:
    bit position and description, in the order of declaration. *)
Definition BIOSCharacteristics_table : list (Z * string) :=
  [ (0, "Reserved");
    (1, "Reserved");
    (2, "Unknown");
    (3, "BIOS characteristics not supported");
    (4, "ISA is supported");
    (5, "MCA is supported");
    (6, "EISA is supported");
    (7, "PCI is supported");
    (8, "PC Card (PCMCIA) is supported");
    (9, "PNP is supported");
    (10, "APM is supported");
    (11, "BIOS is upgradeable");
    (12, "BIOS shadowing is allowed");
    (13, "VLB is supported");
    (14, "ESCD support is available");
    (15, "Boot from CD is supported");
    (16, "Selectable boot is supported");
    (17, "BIOS ROM is socketed");
    (18, "Boot from PC Card (PCMCIA) is supported");
    (19, "EDD is supported");
    (20, "Japanese floppy for NEC 9800 1.2 MB is supported (int 13h)");
    (21, "Japanese floppy for Toshiba 1.2 MB is supported (int 13h)");
    (22, "5.25" +++ dquote +++ "/360 kB floppy services are supported (int 13h)");
    (23, "5.25" +++ dquote +++ "/1.2 MB floppy services are supported (int 13h)");
    (24, "3.5" +++ dquote +++ "/720 kB floppy services are supported (int 13h)");
    (25, "3.5" +++ dquote +++ "/2.88 MB floppy services are supported (int 13h)");
    (26, "Print screen service is supported (int 5h)");
    (27, "8042 keyboard services are supported (int 9h)");
    (28, "Serial services are supported (int 14h)");
    (29, "Printer services are supported (int 17h)");
    (30, "CGA/mono video services are supported (int 10h)");
    (31, "NEC PC-98") ].

(** [BIOSCharacteristicsExt1] fields, DSP0134 7.1.2.1. *)

Definition BIOSCharacteristicsExt1ACPIIsSupported : Z := Z.shiftl 1 0.
Definition BIOSCharacteristicsExt1USBLegacyIsSupported : Z := Z.shiftl 1 1.
Definition BIOSCharacteristicsExt1AGPIsSupported : Z := Z.shiftl 1 2.
Definition BIOSCharacteristicsExt1I2OBootIsSupported : Z := Z.shiftl 1 3.
Definition BIOSCharacteristicsExt1LS120SuperDiskBootIsSupported : Z := Z.shiftl 1 4.
Definition BIOSCharacteristicsExt1ATAPIZIPDriveBootIsSupported : Z := Z.shiftl 1 5.
Definition BIOSCharacteristicsExt11394BootIsSupported : Z := Z.shiftl 1 6.
Definition BIOSCharacteristicsExt1SmartBatteryIsSupported : Z := Z.shiftl 1 7.

(** The slice [lines] that [BIOSCharacteristicsExt1.String] builds. *)
Definition BIOSCharacteristicsExt1_lines (v : Z) : list string :=
  let lines := [] in
  let lines := append_if (isset v BIOSCharacteristicsExt1ACPIIsSupported) lines
    (tab +++ tab +++ "ACPI is supported") in
  let lines := append_if (isset v BIOSCharacteristicsExt1USBLegacyIsSupported) lines
    (tab +++ tab +++ "USB legacy is supported") in
  let lines := append_if (isset v BIOSCharacteristicsExt1AGPIsSupported) lines
    (tab +++ tab +++ "AGP is supported") in
  let lines := append_if (isset v BIOSCharacteristicsExt1I2OBootIsSupported) lines
    (tab +++ tab +++ "I2O boot is supported") in
  let lines := append_if (isset v BIOSCharacteristicsExt1LS120SuperDiskBootIsSupported) lines
    (tab +++ tab +++ "LS-120 boot is supported") in
  let lines := append_if (isset v BIOSCharacteristicsExt1ATAPIZIPDriveBootIsSupported) lines
    (tab +++ tab +++ "ATAPI Zip drive boot is supported") in
  let lines := append_if (isset v BIOSCharacteristicsExt11394BootIsSupported) lines
    (tab +++ tab +++ "IEEE 1394 boot is supported") in
  let lines := append_if (isset v BIOSCharacteristicsExt1SmartBatteryIsSupported) lines
    (tab +++ tab +++ "Smart battery is supported") in
  lines.

Definition BIOSCharacteristicsExt1_String (v : Z) : string :=
  Fmt.Join (BIOSCharacteristicsExt1_lines v) nl.

(** The table of [BIOSCharacteristicsExt1]. *)
Definition BIOSCharacteristicsExt1_table : list (Z * string) :=
  [ (0, "ACPI is supported");
    (1, "USB legacy is supported");
    (2, "AGP is supported");
    (3, "I2O boot is supported");
    (4, "LS-120 boot is supported");
    (5, "ATAPI Zip drive boot is supported");
    (6, "IEEE 1394 boot is supported");
    (7, "Smart battery is supported") ].

(** [BIOSCharacteristicsExt2] fields, DSP0134 7.1.2.2. *)

Definition BIOSCharacteristicsExt2BIOSBootSpecificationIsSupported : Z := Z.shiftl 1 0.
Definition BIOSCharacteristicsExt2FunctionKeyinitiatedNetworkServiceBootIsSupported : Z := Z.shiftl 1 1.
Definition BIOSCharacteristicsExt2TargetedContentDistributionIsSupported : Z := Z.shiftl 1 2.
Definition BIOSCharacteristicsExt2UEFISpecificationIsSupported : Z := Z.shiftl 1 3.
Definition BIOSCharacteristicsExt2SMBIOSTableDescribesAVirtualMachine : Z := Z.shiftl 1 4.

(** The slice [lines] that [BIOSCharacteristicsExt2.String] builds. *)
Definition BIOSCharacteristicsExt2_lines (v : Z) : list string :=
  let lines := [] in
  let lines := append_if (isset v BIOSCharacteristicsExt2BIOSBootSpecificationIsSupported) lines
    (tab +++ tab +++ "BIOS boot specification is supported") in
  let lines := append_if (isset v BIOSCharacteristicsExt2FunctionKeyinitiatedNetworkServiceBootIsSupported) lines
    (tab +++ tab +++ "Function key-initiated network boot is supported") in
  let lines := append_if (isset v BIOSCharacteristicsExt2TargetedContentDistributionIsSupported) lines
    (tab +++ tab +++ "Targeted content distribution is supported") in
  let lines := append_if (isset v BIOSCharacteristicsExt2UEFISpecificationIsSupported) lines
    (tab +++ tab +++ "UEFI is supported") in
  let lines := append_if (isset v BIOSCharacteristicsExt2SMBIOSTableDescribesAVirtualMachine) lines
    (tab +++ tab +++ "System is a virtual machine") in
  lines.

Definition BIOSCharacteristicsExt2_String (v : Z) : string :=
  Fmt.Join (BIOSCharacteristicsExt2_lines v) nl.

(** The table of [BIOSCharacteristicsExt2]. *)
Definition BIOSCharacteristicsExt2_table : list (Z * string) :=
  [ (0, "BIOS boot specification is supported");
    (1, "Function key-initiated network boot is supported");
    (2, "Targeted content distribution is supported");
    (3, "UEFI is supported");
    (4, "System is a virtual machine") ].

(** ** [BIOSInformation.String] *)

Section Summary.

(** [Header.String] is declared with [Header], outside the sources at
    hand; the summary takes it as a parameter. *)
Variable Header_String : Header -> string.

(** The width of [uint] and [int] on the target. *)
Variable a : UintWidth.

(** The slice [lines] that [BIOSInformation.String] builds. *)
Definition BIOSInformation_lines (bi : BIOSInformation) : list string :=
  let lines :=
    [ Header_String (Table_Header (BIOSInformation_Table bi));
      tab +++ "Vendor: " +++ Vendor bi;
      tab +++ "Version: " +++ Version bi;
      tab +++ "Release Date: " +++ ReleaseDate bi ] in
  let lines :=
    if negb (StartingAddressSegment bi =? 0) then
      lines ++
      [ tab +++ "Address: 0x" +++ Fmt.X04 (StartingAddressSegment bi) +++ "0";
        tab +++ "Runtime Size: " +++
          Fmt.d (Z.quot
                   (int a (Z.shiftl
                             (int a (0x10000 - int a (StartingAddressSegment bi)))
                             4))
                   1024) +++ " kB" ]
    else lines in
  let bs := GetROMSizeBytes a bi in
  let lines :=
    if bs <? 1024 then
      lines ++ [ tab +++ "ROM Size: " +++ Fmt.d bs ]
    else if bs <? 1024 * 1024 then
      lines ++ [ tab +++ "ROM Size: " +++ Fmt.d (bs / 1024) +++ " kB" ]
    else if bs <? 1024 * 1024 * 1024 then
      lines ++ [ tab +++ "ROM Size: " +++ Fmt.d (bs / 1024 / 1024) +++ " MB" ]
    else
      lines ++ [ tab +++ "ROM Size: " +++ Fmt.d (bs / 1024 / 1024 / 1024) +++ " GB" ] in
  let lines :=
    lines ++
    [ tab +++ "Characteristics:" +++ nl +++
        BIOSCharacteristics_String (Characteristics bi);
      BIOSCharacteristicsExt1_String (CharacteristicsExt1 bi);
      BIOSCharacteristicsExt2_String (CharacteristicsExt2 bi) ] in
  let lines :=
    if (bi_Len bi >=? 0x16) && negb (SystemBIOSMajorRelease bi =? 0xff) (* 2.4+ *)
    then
      lines ++
      [ tab +++ "BIOS Revision: " +++ Fmt.d (SystemBIOSMajorRelease bi) +++ "." +++
          Fmt.d (SystemBIOSMinorRelease bi) ]
    else lines in
  let lines :=
    if (bi_Len bi >=? 0x18) &&
       negb (EmbeddedControllerFirmwareMajorRelease bi =? 0xff)
    then
      lines ++
      [ tab +++ "Firmware Revision: " +++
          Fmt.d (EmbeddedControllerFirmwareMajorRelease bi) +++ "." +++
          Fmt.d (EmbeddedControllerFirmwareMinorRelease bi) ]
    else lines in
  lines.

Definition BIOSInformation_String (bi : BIOSInformation) : string :=
  Fmt.Join (BIOSInformation_lines bi) nl.

End Summary.

(** ** [NewBIOSInformation] *)

(** The result of a Go function returning a pointer and an [error]: a
    value and a nil error, or a nil pointer and an error carrying its
    message. *)
Inductive result (T : Type) : Type :=
| Ok (x : T)
| Err (message : string).

Arguments Ok {T} x.
Arguments Err {T} message.

(** The two failures of the decoder, under the names of the specification. *)
Definition WrongType (ty : Z) : string := "invalid table type " +++ Fmt.d ty.
Definition TruncatedRecord : string := "required fields missing".

(** [&BIOSInformation{Table: *t}]: every other field at its zero value. *)
Definition zero_BIOSInformation (t : Table) : BIOSInformation :=
  {| BIOSInformation_Table := t;
     Vendor := ""; Version := ""; StartingAddressSegment := 0;
     ReleaseDate := ""; ROMSize := 0; Characteristics := 0;
     CharacteristicsExt1 := 0; CharacteristicsExt2 := 0;
     SystemBIOSMajorRelease := 0; SystemBIOSMinorRelease := 0;
     EmbeddedControllerFirmwareMajorRelease := 0;
     EmbeddedControllerFirmwareMinorRelease := 0;
     ExtendedROMSize := 0 |}.

Section Decoder.

(** [parseStruct] is the reflection-driven field reader of the package,
    outside the sources at hand.  It is a parameter: given the table, an
    offset, the [complete] flag and the record to fill, it returns the
    offset reached and the filled record, or an error. *)
Variable parseStruct :
  Table -> Z -> bool -> BIOSInformation -> result (Z * BIOSInformation).

Definition NewBIOSInformation (t : Table) : result BIOSInformation :=
  if negb (Type' (Table_Header t) =? TableTypeBIOSInformation) then
    Err ("invalid table type " +++ Fmt.d (Type' (Table_Header t)))
  else if Len t <? 0x12 then
    Err "required fields missing"
  else
    let bi := zero_BIOSInformation t in
    match parseStruct t 0 (* off *) false (* complete *) bi with
    | Err e => Err e
    | Ok (_, bi) => Ok bi
    end.

End Decoder.

(** ** Notions the properties are stated with *)

(** A table lists its bit positions in strictly ascending order. *)
Definition ascending (table : list (Z * string)) : Prop :=
  StronglySorted Z.lt (map fst table).

(** [lines] reports the bits of [table] set in [v], in the order of the
    table: it is what the generic renderer yields, each description
    indented, and so the description of a lower set bit stands before the
    description of a higher one. *)
Definition in_table_order
  (table : list (Z * string)) (v : Z) (lines : list string) : Prop :=
  lines = map indent (render table v)
  /\ forall (i j : Z) (di dj : string),
       In (i, di) table -> In (j, dj) table -> i < j ->
       Z.testbit v i = true -> Z.testbit v j = true ->
       exists l1 l2 l3 : list string,
         lines = l1 ++ indent di :: l2 ++ indent dj :: l3.

(** No bit that [table] defines is set in [v]. *)
Definition no_defined_bit (table : list (Z * string)) (v : Z) : Prop :=
  forall (i : Z) (description : string),
    In (i, description) table -> Z.testbit v i = false.

(** A renderer, given by its slice of lines and its joined text, yields
    nothing when no bit of [table] is set. *)
Definition empty_without_defined_bit
  (table : list (Z * string))
  (lines : Z -> list string) (text : Z -> string) : Prop :=
  forall v : Z, no_defined_bit table v -> lines v = [] /\ text v = "".

(** A renderer looks at no bit outside [table]: two vectors that agree on
    the bits of the table are rendered alike. *)
Definition ignores_undefined_bits
  (table : list (Z * string)) (lines : Z -> list string) : Prop :=
  forall v v' : Z,
    (forall (i : Z) (description : string),
        In (i, description) table -> Z.testbit v i = Z.testbit v' i) ->
    lines v = lines v'.

(** [s] starts with [label], as [strings.HasPrefix]. *)
Fixpoint starts_with (label s : string) : bool :=
  match label with
  | EmptyString => true
  | String c label' =>
      match s with
      | EmptyString => false
      | String c' s' => Ascii.eqb c c' && starts_with label' s'
      end
  end.

(** The elements of [lines] that start with [label]. *)
Definition lines_labelled (label : string) (lines : list string) : list string :=
  filter (starts_with label) lines.

(** The labels of the conditional lines of the summary. *)
Definition label_Address : string := tab +++ "Address: ".
Definition label_RuntimeSize : string := tab +++ "Runtime Size: ".
Definition label_ROMSize : string := tab +++ "ROM Size: ".
Definition label_BIOSRevision : string := tab +++ "BIOS Revision: ".

(** The header line of a summary is not indented, so that it is not taken
    for a field line. *)
Definition header_not_indented (Header_String : Header -> string) : Prop :=
  forall h : Header, starts_with tab (Header_String h) = false.

(** The ROM size as the specification words it: the count in the largest
    unit among bytes, kB, MB and GB, with thresholds at the powers of 1024,
    and the suffix of that unit. *)
Definition scaled_ROMSize (bs : Z) : Z * string :=
  if bs <? 1024 then (bs, "")
  else if bs <? 1024 ^ 2 then (bs / 1024, " kB")
  else if bs <? 1024 ^ 3 then (bs / 1024 ^ 2, " MB")
  else (bs / 1024 ^ 3, " GB").

(** The runtime size as the specification words it, in kilobytes. *)
Definition runtime_size_kB (segment : Z) : Z :=
  Z.shiftl (0x10000 - segment) 4 / 1024.

(** The text of the conditional lines, as the specification words them. *)
Definition Address_line (segment : Z) : string :=
  label_Address +++ "0x" +++ Fmt.X04 segment +++ "0".

Definition RuntimeSize_line (segment : Z) : string :=
  label_RuntimeSize +++ Fmt.d (runtime_size_kB segment) +++ " kB".

Definition ROMSize_line (bs : Z) : string :=
  label_ROMSize +++ Fmt.d (fst (scaled_ROMSize bs)) +++ snd (scaled_ROMSize bs).

Definition BIOSRevision_line (major minor : Z) : string :=
  label_BIOSRevision +++ Fmt.d major +++ "." +++ Fmt.d minor.

(** ** Sample records *)

Definition sample_Header_String (h : Header) : string :=
  "Handle 0x" +++ Fmt.X04 (Handle h).

Definition sample_parseStruct
  (t : Table) (off : Z) (complete : bool) (bi : BIOSInformation)
  : result (Z * BIOSInformation) :=
  Ok (off, bi).

Definition sample_Table (ty : Z) (len : nat) : Table :=
  {| Table_Header := {| Type' := ty; Length := Z.of_nat len; Handle := 0 |};
     data := repeat Byte.x00 len;
     strings := [] |}.

(** A record of [len] bytes with the given ROM size, extended ROM size,
    starting segment and BIOS release. *)
Definition sample_BIOSInformation
  (len : nat) (rom ext segment major minor : Z) : BIOSInformation :=
  {| BIOSInformation_Table := sample_Table 0 len;
     Vendor := "Vendor"; Version := "1.0";
     StartingAddressSegment := segment;
     ReleaseDate := "01/01/2020"; ROMSize := rom;
     Characteristics := 0x90;
     CharacteristicsExt1 := 0x03; CharacteristicsExt2 := 0x08;
     SystemBIOSMajorRelease := major; SystemBIOSMinorRelease := minor;
     EmbeddedControllerFirmwareMajorRelease := 0xff;
     EmbeddedControllerFirmwareMinorRelease := 0xff;
     ExtendedROMSize := ext |}.

(** The end-of-table record every SMBIOS table closes with: type 127, four
    bytes long. *)
Definition end_of_table : Table :=
  {| Table_Header := {| Type' := 127; Length := 4; Handle := 0x7f00 |};
     data := [ Byte.x7f; Byte.x04; Byte.x00; Byte.x7f ];
     strings := [] |}.

(** ** Notions for the further properties *)

Definition label_FirmwareRevision : string := tab +++ "Firmware Revision: ".

Definition FirmwareRevision_line (major minor : Z) : string :=
  label_FirmwareRevision +++ Fmt.d major +++ "." +++ Fmt.d minor.

(** A renderer reports a description exactly when a bit of [table] that
    carries it is set. *)
Definition reports_set_bits
  (table : list (Z * string)) (lines : Z -> list string) : Prop :=
  forall (v : Z) (description : string),
    In (indent description) (lines v) <->
    exists i : Z, In (i, description) table /\ Z.testbit v i = true.

(** A record of [len] bytes whose embedded controller firmware release is
    [major].[minor]. *)
Definition sample_firmware (len : nat) (major minor : Z) : BIOSInformation :=
  {| BIOSInformation_Table := sample_Table 0 len;
     Vendor := "Vendor"; Version := "1.0";
     StartingAddressSegment := 0;
     ReleaseDate := "01/01/2020"; ROMSize := 0x7f;
     Characteristics := 0;
     CharacteristicsExt1 := 0; CharacteristicsExt2 := 0;
     SystemBIOSMajorRelease := 0xff; SystemBIOSMinorRelease := 0xff;
     EmbeddedControllerFirmwareMajorRelease := major;
     EmbeddedControllerFirmwareMinorRelease := minor;
     ExtendedROMSize := 0 |}.

(** ** The summary as a text *)

(** The lines of a text, as [strings.Split(s, "\n")] yields them: the
    text is cut at every newline, and the empty text is one empty line. *)
Fixpoint text_lines (s : string) : list string :=
  match s with
  | EmptyString => [EmptyString]
  | String c s' =>
      if Ascii.eqb c (ascii_of_nat 10) then EmptyString :: text_lines s'
      else
        match text_lines s' with
        | [] => [String c EmptyString]
        | l :: ls => String c l :: ls
        end
  end.

(** [s] holds no newline. *)
Fixpoint single_line (s : string) : bool :=
  match s with
  | EmptyString => true
  | String c s' => negb (Ascii.eqb c (ascii_of_nat 10)) && single_line s'
  end.

(** The lines of the text that [BIOSInformation.String] returns. *)
Definition summary_lines
  (Header_String : Header -> string) (a : UintWidth) (bi : BIOSInformation)
  : list string :=
  text_lines (BIOSInformation_String Header_String a bi).

(** The three strings of the record hold no newline. *)
Definition single_line_fields (bi : BIOSInformation) : Prop :=
  single_line (Vendor bi) = true
  /\ single_line (Version bi) = true
  /\ single_line (ReleaseDate bi) = true.

(** No line of the header text is indented. *)
Definition header_lines_not_indented (Header_String : Header -> string) : Prop :=
  forall (h : Header) (l : string),
    In l (text_lines (Header_String h)) -> starts_with tab l = false.

(** A record of [len] bytes with the given vendor string, ROM size and
    starting segment, and without a BIOS or firmware release. *)
Definition sample_vendor
  (vendor : string) (len : nat) (rom segment : Z) : BIOSInformation :=
  {| BIOSInformation_Table := sample_Table 0 len;
     Vendor := vendor; Version := "1.0";
     StartingAddressSegment := segment;
     ReleaseDate := "01/01/2020"; ROMSize := rom;
     Characteristics := 0x90;
     CharacteristicsExt1 := 0x03; CharacteristicsExt2 := 0x08;
     SystemBIOSMajorRelease := 4; SystemBIOSMinorRelease := 6;
     EmbeddedControllerFirmwareMajorRelease := 1;
     EmbeddedControllerFirmwareMinorRelease := 22;
     ExtendedROMSize := 0 |}.

(** * Properties *)

(** ** The model at a sample record *)

Example X04_E800 : Fmt.X04 0xE800 = "E800".
Proof. reflexivity. Qed.

Example X04_001A : Fmt.X04 0x1A = "001A".
Proof. reflexivity. Qed.

Example d_1114112 : Fmt.d (65536 * 17) = "1114112".
Proof. reflexivity. Qed.

Example sample_summary :
  BIOSInformation_lines sample_Header_String W64
    (sample_BIOSInformation 0x1a 0xff 0x4010 0xe800 4 6) =
  [ "Handle 0x0000";
    tab +++ "Vendor: Vendor";
    tab +++ "Version: 1.0";
    tab +++ "Release Date: 01/01/2020";
    tab +++ "Address: 0xE8000";
    tab +++ "Runtime Size: 96 kB";
    tab +++ "ROM Size: 16 GB";
    tab +++ "Characteristics:" +++ nl +++
      tab +++ tab +++ "ISA is supported" +++ nl +++
      tab +++ tab +++ "PCI is supported";
    tab +++ tab +++ "ACPI is supported" +++ nl +++
      tab +++ tab +++ "USB legacy is supported";
    tab +++ tab +++ "UEFI is supported";
    tab +++ "BIOS Revision: 4.6" ].
Proof. vm_compute. reflexivity. Qed.

Example sample_decode_short :
  NewBIOSInformation sample_parseStruct (sample_Table 0 0x11) =
  Err "required fields missing".
Proof. reflexivity. Qed.

Example sample_decode :
  NewBIOSInformation sample_parseStruct (sample_Table 0 0x12) =
  Ok (zero_BIOSInformation (sample_Table 0 0x12)).
Proof. reflexivity. Qed.

(** ** Machine arithmetic *)

Lemma uint_small (a : UintWidth) (z : Z) : 0 <= z < 2 ^ 32 -> uint a z = z.
Proof.
  intros Hz. unfold uint. apply Z.mod_small.
  destruct a; cbn [UintSize]; lia.
Qed.

Lemma uint_W64_small (z : Z) : 0 <= z < 2 ^ 64 -> uint W64 z = z.
Proof. intros Hz. unfold uint. apply Z.mod_small. exact Hz. Qed.

Lemma int_small (a : UintWidth) (z : Z) :
  - 2 ^ 31 <= z < 2 ^ 31 -> int a z = z.
Proof.
  intros Hz. unfold int.
  destruct a; cbn [UintSize]; rewrite Z.mod_small; lia.
Qed.

(** The two halves of an extended ROM size: the unit selector is one of
    0..3 and the magnitude is below [2^14]. *)
Lemma extended_unit_magnitude (value : Z) :
  is_uint16 value ->
  0 <= Z.shiftr value 14 <= 3 /\ 0 <= Z.land value 0x3fff < 2 ^ 14.
Proof.
  unfold is_uint16. intros Hv.
  rewrite Z.shiftr_div_pow2 by lia.
  change 0x3fff with (Z.ones 14). rewrite Z.land_ones by lia.
  split.
  - split.
    + apply Z.div_pos; lia.
    + apply Z.lt_succ_r. apply Z.div_lt_upper_bound; lia.
  - apply Z.mod_pos_bound. lia.
Qed.

(** ** ROM size *)

(** The sentinel branch of [GetROMSizeBytes] on any target: the product of
    magnitude and multiplier, reduced to the width of [uint]. *)
Lemma GetROMSizeBytes_sentinel (a : UintWidth) (bi : BIOSInformation) :
  is_uint16 (ExtendedROMSize bi) ->
  ROMSize bi = 0xff ->
  let value := if bi_Len bi >=? 0x1a then ExtendedROMSize bi else 0x10 in
  let unit := Z.shiftr value 14 in
  GetROMSizeBytes a bi =
  uint a (Z.land value 0x3fff *
          (if unit =? 0 then 1048576 else if unit =? 1 then 1073741824 else 1)).
Proof.
  intros Hext Hrom. unfold GetROMSizeBytes. rewrite Hrom. cbn [Z.eqb negb].
  change (negb (255 =? 255)) with false. cbv iota.
  rewrite (uint_small a (ExtendedROMSize bi)) by (unfold is_uint16 in Hext; lia).
  rewrite (uint_small a 1) by lia.
  cbv zeta. reflexivity.
Qed.

(** C3: when ROMSize is not the sentinel 0xFF, the size is
    65536 * (ROMSize + 1) bytes on every target, whatever the record length
    and the extended ROM size are; ROMSize 0x00 gives 65536 and ROMSize 0x10
    gives 1,114,112. *)
Theorem GetROMSizeBytes_legacy (a : UintWidth) (bi : BIOSInformation) :
  is_uint8 (ROMSize bi) ->
  ROMSize bi <> 0xff ->
  GetROMSizeBytes a bi = 65536 * (ROMSize bi + 1)
  /\ (forall bi' : BIOSInformation,
         ROMSize bi' = ROMSize bi -> GetROMSizeBytes a bi' = GetROMSizeBytes a bi)
  /\ (ROMSize bi = 0x00 -> GetROMSizeBytes a bi = 65536)
  /\ (ROMSize bi = 0x10 -> GetROMSizeBytes a bi = 1114112).
Proof.
  unfold is_uint8. intros Hrange Hne.
  assert (Hgen : forall b : BIOSInformation,
             ROMSize b = ROMSize bi ->
             GetROMSizeBytes a b = 65536 * (ROMSize bi + 1)).
  { intros b Hb. unfold GetROMSizeBytes. rewrite Hb.
    destruct (Z.eqb_spec (ROMSize bi) 0xff) as [Heq | _]; [contradiction |].
    cbn [negb].
    rewrite (uint_small a (ROMSize bi)) by lia.
    rewrite (uint_small a (ROMSize bi + 1)) by lia.
    apply uint_small. lia. }
  pose proof (Hgen bi eq_refl) as Hbi.
  repeat split.
  - exact Hbi.
  - intros bi' Hb. rewrite (Hgen bi' Hb). symmetry. exact Hbi.
  - intros H0. rewrite Hbi, H0. reflexivity.
  - intros H16. rewrite Hbi, H16. reflexivity.
Qed.

(** C2: with the sentinel 0xFF in ROMSize and a record shorter than 0x1A
    bytes, the fallback value 0x10 is used with unit 0 (megabytes): the size
    is exactly 16,777,216 bytes on every target. *)
Theorem GetROMSizeBytes_fallback (a : UintWidth) (bi : BIOSInformation) :
  ROMSize bi = 0xff ->
  bi_Len bi < 0x1a ->
  GetROMSizeBytes a bi = 16777216
  /\ Z.shiftr 0x10 14 = 0
  /\ GetROMSizeBytes a bi = Z.land 0x10 0x3fff * 1048576.
Proof.
  intros Hrom Hlen.
  assert (H : GetROMSizeBytes a bi = 16777216).
  { unfold GetROMSizeBytes. rewrite Hrom.
    change (negb (0xff =? 0xff)) with false. cbv iota.
    destruct (Z.geb_spec (bi_Len bi) 0x1a) as [Hge | _]; [lia |].
    cbv zeta. change (Z.shiftr 0x10 14 =? 0) with true. cbv iota.
    change (Z.land 0x10 0x3fff * (1024 * 1024)) with 16777216.
    apply uint_small. lia. }
  repeat split; [exact H | exact H].
Qed.

(** Where [uint] has 64 bits: with the sentinel 0xFF in ROMSize and a
    record of at least 0x1A bytes, the size is read from ExtendedROMSize: unit = value >> 14,
    magnitude = value & 0x3FFF, and the result is magnitude * 1,048,576 for
    unit 0, magnitude * 1,073,741,824 for unit 1 and magnitude itself for
    the reserved units 2 and 3; the value 0x4010 gives 16 * 1,073,741,824.
    No product of a magnitude and a multiplier reaches 2^64. *)
Theorem GetROMSizeBytes_extended (bi : BIOSInformation) :
  is_uint16 (ExtendedROMSize bi) ->
  ROMSize bi = 0xff ->
  0x1a <= bi_Len bi ->
  let value := ExtendedROMSize bi in
  let unit := Z.shiftr value 14 in
  let magnitude := Z.land value 0x3fff in
  0 <= unit <= 3
  /\ (unit = 0 -> GetROMSizeBytes W64 bi = magnitude * 1048576)
  /\ (unit = 1 -> GetROMSizeBytes W64 bi = magnitude * 1073741824)
  /\ (unit = 2 \/ unit = 3 -> GetROMSizeBytes W64 bi = magnitude * 1)
  /\ (value = 0x4010 -> GetROMSizeBytes W64 bi = 16 * 1073741824).
Proof.
  intros Hext Hrom Hlen value unit magnitude.
  pose proof (extended_unit_magnitude value Hext) as [Hunit Hmag].
  fold unit in Hunit. fold magnitude in Hmag.
  pose proof (GetROMSizeBytes_sentinel W64 bi Hext Hrom) as Hs.
  cbv zeta in Hs.
  destruct (Z.geb_spec (bi_Len bi) 0x1a) as [_ | Hlt]; [| lia].
  fold value in Hs. fold unit in Hs. fold magnitude in Hs.
  assert (H0 : unit = 0 -> GetROMSizeBytes W64 bi = magnitude * 1048576).
  { intros Hu. rewrite Hs, Hu. cbn [Z.eqb]. apply uint_W64_small. lia. }
  assert (H1 : unit = 1 -> GetROMSizeBytes W64 bi = magnitude * 1073741824).
  { intros Hu. rewrite Hs, Hu. cbn [Z.eqb Pos.eqb]. apply uint_W64_small. lia. }
  split; [exact Hunit |].
  split; [exact H0 |].
  split; [exact H1 |].
  split.
  - intros [Hu | Hu]; rewrite Hs, Hu; cbn [Z.eqb Pos.eqb];
      apply uint_W64_small; lia.
  - intros Hv. rewrite H1.
    + subst magnitude. rewrite Hv. reflexivity.
    + subst unit. rewrite Hv. reflexivity.
Qed.

(** On a target whose [uint] is 32 bits wide the same product is reduced
    modulo [2^32]: sixteen gigabytes do not fit. *)
Lemma GetROMSizeBytes_W32_wraps (bi : BIOSInformation) :
  ROMSize bi = 0xff ->
  0x1a <= bi_Len bi ->
  ExtendedROMSize bi = 0x4010 ->
  GetROMSizeBytes W32 bi = 0.
Proof.
  intros Hrom Hlen Hext.
  rewrite GetROMSizeBytes_sentinel by (rewrite ?Hext; unfold is_uint16; lia).
  destruct (Z.geb_spec (bi_Len bi) 0x1a) as [_ | Hlt]; [| lia].
  rewrite Hext. reflexivity.
Qed.

(** ** Flag renderers *)

Lemma isset_bit (v i : Z) : 0 <= i -> isset v (Z.shiftl 1 i) = Z.testbit v i.
Proof.
  intros Hi. unfold isset.
  destruct (Z.testbit v i) eqn:Hbit.
  - destruct (Z.eqb_spec (Z.land v (Z.shiftl 1 i)) 0) as [Hz | _]; [| reflexivity].
    exfalso.
    assert (Hc : Z.testbit (Z.land v (Z.shiftl 1 i)) i = true).
    { rewrite Z.land_spec, Hbit, Z.shiftl_spec by lia.
      rewrite Z.sub_diag. reflexivity. }
    rewrite Hz, Z.bits_0 in Hc. discriminate.
  - replace (Z.land v (Z.shiftl 1 i)) with 0; [reflexivity |].
    symmetry. apply Z.bits_inj'. intros n Hn.
    rewrite Z.land_spec, Z.bits_0, Z.shiftl_spec by lia.
    destruct (Z.eq_dec n i) as [-> | Hne].
    + rewrite Hbit. reflexivity.
    + replace (Z.testbit 1 (n - i)) with false; [apply andb_false_r |].
      destruct (Z.lt_ge_cases n i) as [Hlt | Hge].
      * symmetry. apply Z.testbit_neg_r. lia.
      * symmetry. change 1 with (Z.ones 1). apply Z.ones_spec_high. lia.
Qed.

Lemma append_if_app (cond : bool) (lines : list string) (s : string) :
  append_if cond lines s = lines ++ (if cond then [s] else []).
Proof. destruct cond; cbn; [reflexivity | symmetry; apply app_nil_r]. Qed.

Lemma render_nil (v : Z) : map indent (render [] v) = [].
Proof. reflexivity. Qed.

Lemma render_cons (i : Z) (d : string) (t : list (Z * string)) (v : Z) :
  map indent (render ((i, d) :: t) v) =
  (if Z.testbit v i then [indent d] else []) ++ map indent (render t v).
Proof. unfold render. cbn. destruct (Z.testbit v i); reflexivity. Qed.

Lemma render_In (table : list (Z * string)) (v i : Z) (d : string) :
  In (i, d) table -> Z.testbit v i = true -> In d (render table v).
Proof.
  intros Hin Hbit. unfold render.
  apply (in_map snd _ (i, d)). apply filter_In. split; [exact Hin | exact Hbit].
Qed.

(** The generic renderer keeps the order of an ascending table: of two set
    bits, the lower one is described first. *)
Lemma render_precedes (table : list (Z * string)) (v i j : Z) (di dj : string) :
  ascending table ->
  In (i, di) table -> In (j, dj) table -> i < j ->
  Z.testbit v i = true -> Z.testbit v j = true ->
  exists l1 l2 l3 : list string, render table v = l1 ++ di :: l2 ++ dj :: l3.
Proof.
  unfold ascending. intros Hsorted Hi Hj Hlt Hbi Hbj.
  induction table as [| [k dk] t IH]; [contradiction |].
  cbn [map fst] in Hsorted. apply StronglySorted_inv in Hsorted.
  destruct Hsorted as [Ht Hall]. rewrite Forall_forall in Hall.
  destruct Hi as [Hi | Hi]; destruct Hj as [Hj | Hj].
  - injection Hi as -> ->. injection Hj as -> ->. lia.
  - injection Hi as -> ->.
    destruct (in_split _ _ (render_In t v j dj Hj Hbj)) as (l2 & l3 & Hsplit).
    exists [], l2, l3. unfold render in *. cbn. rewrite Hbi. cbn.
    rewrite Hsplit. reflexivity.
  - injection Hj as -> ->.
    assert (j < i) by (apply Hall; apply (in_map fst _ (i, di)); exact Hi).
    lia.
  - destruct (IH Ht Hi Hj) as (l1 & l2 & l3 & Hsplit).
    unfold render in *. cbn. destruct (Z.testbit v k); cbn.
    + exists (dk :: l1), l2, l3. rewrite Hsplit. reflexivity.
    + exists l1, l2, l3. exact Hsplit.
Qed.

Lemma in_table_order_intro
  (table : list (Z * string)) (v : Z) (lines : list string) :
  ascending table ->
  lines = map indent (render table v) ->
  in_table_order table v lines.
Proof.
  intros Hasc Heq. split; [exact Heq |].
  intros i j di dj Hi Hj Hlt Hbi Hbj.
  destruct (render_precedes table v i j di dj Hasc Hi Hj Hlt Hbi Hbj)
    as (l1 & l2 & l3 & Hsplit).
  exists (map indent l1), (map indent l2), (map indent l3).
  rewrite Heq, Hsplit. rewrite map_app. cbn [map]. rewrite map_app. reflexivity.
Qed.

(** Turns an if-chain of [append_if] into the concatenation the generic
    renderer unfolds to. *)
Ltac chain_to_render :=
  cbv zeta;
  rewrite ?append_if_app;
  rewrite ?isset_bit by lia;
  rewrite ?render_cons, ?render_nil;
  rewrite <- ?app_assoc; rewrite ?app_nil_r;
  reflexivity.

Lemma BIOSCharacteristics_lines_render (v : Z) :
  BIOSCharacteristics_lines v = map indent (render BIOSCharacteristics_table v).
Proof.
  unfold BIOSCharacteristics_lines, BIOSCharacteristics_table.
  unfold BIOSCharacteristicsReserved, BIOSCharacteristicsReserved2,
    BIOSCharacteristicsUnknown,
    BIOSCharacteristicsBIOSCharacteristicsAreNotSupported,
    BIOSCharacteristicsISAIsSupported, BIOSCharacteristicsMCAIsSupported,
    BIOSCharacteristicsEISAIsSupported, BIOSCharacteristicsPCIIsSupported,
    BIOSCharacteristicsPCCardPCMCIAIsSupported,
    BIOSCharacteristicsPlugAndPlayIsSupported,
    BIOSCharacteristicsAPMIsSupported,
    BIOSCharacteristicsBIOSIsUpgradeableFlash,
    BIOSCharacteristicsBIOSShadowingIsAllowed,
    BIOSCharacteristicsVLVESAIsSupported,
    BIOSCharacteristicsESCDSupportIsAvailable,
    BIOSCharacteristicsBootFromCDIsSupported,
    BIOSCharacteristicsSelectableBootIsSupported,
    BIOSCharacteristicsBIOSROMIsSocketed,
    BIOSCharacteristicsBootFromPCCardPCMCIAIsSupported,
    BIOSCharacteristicsEDDSpecificationIsSupported,
    BIOSCharacteristicsInt13hJapaneseFloppyForNEC980012MB351KBytessector360RPMIsSupported,
    BIOSCharacteristicsInt13hJapaneseFloppyForToshiba12MB35360RPMIsSupported,
    BIOSCharacteristicsInt13h525360KBFloppyServicesAreSupported,
    BIOSCharacteristicsInt13h52512MBFloppyServicesAreSupported,
    BIOSCharacteristicsInt13h35720KBFloppyServicesAreSupported,
    BIOSCharacteristicsInt13h35288MBFloppyServicesAreSupported,
    BIOSCharacteristicsInt5hPrintScreenServiceIsSupported,
    BIOSCharacteristicsInt9h8042KeyboardServicesAreSupported,
    BIOSCharacteristicsInt14hSerialServicesAreSupported,
    BIOSCharacteristicsInt17hPrinterServicesAreSupported,
    BIOSCharacteristicsInt10hCGAMonoVideoServicesAreSupported,
    BIOSCharacteristicsNECPC98.
  chain_to_render.
Qed.

Lemma BIOSCharacteristicsExt1_lines_render (v : Z) :
  BIOSCharacteristicsExt1_lines v =
  map indent (render BIOSCharacteristicsExt1_table v).
Proof.
  unfold BIOSCharacteristicsExt1_lines, BIOSCharacteristicsExt1_table.
  unfold BIOSCharacteristicsExt1ACPIIsSupported,
    BIOSCharacteristicsExt1USBLegacyIsSupported,
    BIOSCharacteristicsExt1AGPIsSupported,
    BIOSCharacteristicsExt1I2OBootIsSupported,
    BIOSCharacteristicsExt1LS120SuperDiskBootIsSupported,
    BIOSCharacteristicsExt1ATAPIZIPDriveBootIsSupported,
    BIOSCharacteristicsExt11394BootIsSupported,
    BIOSCharacteristicsExt1SmartBatteryIsSupported.
  chain_to_render.
Qed.

Lemma BIOSCharacteristicsExt2_lines_render (v : Z) :
  BIOSCharacteristicsExt2_lines v =
  map indent (render BIOSCharacteristicsExt2_table v).
Proof.
  unfold BIOSCharacteristicsExt2_lines, BIOSCharacteristicsExt2_table.
  unfold BIOSCharacteristicsExt2BIOSBootSpecificationIsSupported,
    BIOSCharacteristicsExt2FunctionKeyinitiatedNetworkServiceBootIsSupported,
    BIOSCharacteristicsExt2TargetedContentDistributionIsSupported,
    BIOSCharacteristicsExt2UEFISpecificationIsSupported,
    BIOSCharacteristicsExt2SMBIOSTableDescribesAVirtualMachine.
  chain_to_render.
Qed.

Lemma BIOSCharacteristics_table_ascending : ascending BIOSCharacteristics_table.
Proof. unfold ascending. cbn. repeat constructor. Qed.

Lemma BIOSCharacteristicsExt1_table_ascending :
  ascending BIOSCharacteristicsExt1_table.
Proof. unfold ascending. cbn. repeat constructor. Qed.

Lemma BIOSCharacteristicsExt2_table_ascending :
  ascending BIOSCharacteristicsExt2_table.
Proof. unfold ascending. cbn. repeat constructor. Qed.

Lemma render_ext (table : list (Z * string)) (v v' : Z) :
  (forall (i : Z) (d : string), In (i, d) table -> Z.testbit v i = Z.testbit v' i) ->
  render table v = render table v'.
Proof.
  intros Hagree. unfold render. f_equal.
  apply filter_ext_in. intros [i d] Hin. cbn. apply (Hagree i d Hin).
Qed.

Lemma render_no_defined_bit (table : list (Z * string)) (v : Z) :
  no_defined_bit table v -> render table v = [].
Proof.
  intros Hnone. rewrite (render_ext table v 0).
  - unfold render. induction table as [| [i d] t IH]; [reflexivity |].
    cbn. rewrite Z.bits_0. apply IH.
    intros j dj Hin. apply (Hnone j dj). right. exact Hin.
  - intros i d Hin. rewrite Z.bits_0. apply (Hnone i d Hin).
Qed.

(** A vector shifted left past the highest bit of a table has none of the
    table's bits set. *)
Lemma no_defined_bit_shiftl (table : list (Z * string)) (u n : Z) :
  Forall (fun e => 0 <= fst e < n) table ->
  no_defined_bit table (Z.shiftl u n).
Proof.
  intros Hall i d Hin. rewrite Forall_forall in Hall.
  specialize (Hall (i, d) Hin). cbn in Hall.
  rewrite Z.shiftl_spec by lia. apply Z.testbit_neg_r. lia.
Qed.

(** C6: each of the three renderers emits the descriptions of the set bits
    its table defines, in the order of the table, which runs from the least
    significant to the most significant bit; the output is a function of the
    vector alone.  With exactly bits 4 and 7 set, the characteristics
    renderer yields the ISA line and then the PCI line. *)
Theorem flag_lines_in_table_order (v : Z) :
  (ascending BIOSCharacteristics_table
   /\ in_table_order BIOSCharacteristics_table v (BIOSCharacteristics_lines v)
   /\ BIOSCharacteristics_String v =
      Fmt.Join (map indent (render BIOSCharacteristics_table v)) nl)
  /\ (ascending BIOSCharacteristicsExt1_table
      /\ in_table_order BIOSCharacteristicsExt1_table v
           (BIOSCharacteristicsExt1_lines v)
      /\ BIOSCharacteristicsExt1_String v =
         Fmt.Join (map indent (render BIOSCharacteristicsExt1_table v)) nl)
  /\ (ascending BIOSCharacteristicsExt2_table
      /\ in_table_order BIOSCharacteristicsExt2_table v
           (BIOSCharacteristicsExt2_lines v)
      /\ BIOSCharacteristicsExt2_String v =
         Fmt.Join (map indent (render BIOSCharacteristicsExt2_table v)) nl)
  /\ BIOSCharacteristics_lines (Z.lor (Z.shiftl 1 4) (Z.shiftl 1 7)) =
     [ tab +++ tab +++ "ISA is supported"; tab +++ tab +++ "PCI is supported" ]
  /\ BIOSCharacteristics_String (Z.lor (Z.shiftl 1 4) (Z.shiftl 1 7)) =
     tab +++ tab +++ "ISA is supported" +++ nl +++
     tab +++ tab +++ "PCI is supported".
Proof.
  split; [| split; [| split; [| split]]].
  - split; [apply BIOSCharacteristics_table_ascending |].
    split.
    + apply in_table_order_intro;
        [ apply BIOSCharacteristics_table_ascending
        | apply BIOSCharacteristics_lines_render ].
    + unfold BIOSCharacteristics_String.
      rewrite BIOSCharacteristics_lines_render. reflexivity.
  - split; [apply BIOSCharacteristicsExt1_table_ascending |].
    split.
    + apply in_table_order_intro;
        [ apply BIOSCharacteristicsExt1_table_ascending
        | apply BIOSCharacteristicsExt1_lines_render ].
    + unfold BIOSCharacteristicsExt1_String.
      rewrite BIOSCharacteristicsExt1_lines_render. reflexivity.
  - split; [apply BIOSCharacteristicsExt2_table_ascending |].
    split.
    + apply in_table_order_intro;
        [ apply BIOSCharacteristicsExt2_table_ascending
        | apply BIOSCharacteristicsExt2_lines_render ].
    + unfold BIOSCharacteristicsExt2_String.
      rewrite BIOSCharacteristicsExt2_lines_render. reflexivity.
  - vm_compute. reflexivity.
  - vm_compute. reflexivity.
Qed.

(** C7: a vector with no defined bit set is rendered as the empty sequence
    (and the empty text), for each of the three renderers; bits outside the
    table never change the output.  This covers the zero vector, a
    characteristics vector whose set bits all lie at positions 32 and above,
    and a second extension byte whose set bits all lie at positions 5 and
    above. *)
Theorem flag_lines_without_defined_bit (u : Z) :
  (empty_without_defined_bit BIOSCharacteristics_table
     BIOSCharacteristics_lines BIOSCharacteristics_String
   /\ ignores_undefined_bits BIOSCharacteristics_table BIOSCharacteristics_lines)
  /\ (empty_without_defined_bit BIOSCharacteristicsExt1_table
        BIOSCharacteristicsExt1_lines BIOSCharacteristicsExt1_String
      /\ ignores_undefined_bits BIOSCharacteristicsExt1_table
           BIOSCharacteristicsExt1_lines)
  /\ (empty_without_defined_bit BIOSCharacteristicsExt2_table
        BIOSCharacteristicsExt2_lines BIOSCharacteristicsExt2_String
      /\ ignores_undefined_bits BIOSCharacteristicsExt2_table
           BIOSCharacteristicsExt2_lines)
  /\ (BIOSCharacteristics_lines 0 = []
      /\ BIOSCharacteristicsExt1_lines 0 = []
      /\ BIOSCharacteristicsExt2_lines 0 = [])
  /\ (BIOSCharacteristics_lines (Z.shiftl u 32) = []
      /\ BIOSCharacteristics_String (Z.shiftl u 32) = ""
      /\ BIOSCharacteristicsExt2_lines (Z.shiftl u 5) = []
      /\ BIOSCharacteristicsExt2_String (Z.shiftl u 5) = "").
Proof.
  assert (E0 : empty_without_defined_bit BIOSCharacteristics_table
                 BIOSCharacteristics_lines BIOSCharacteristics_String).
  { intros v Hnone. unfold BIOSCharacteristics_String.
    rewrite BIOSCharacteristics_lines_render, render_no_defined_bit by exact Hnone.
    split; reflexivity. }
  assert (E1 : empty_without_defined_bit BIOSCharacteristicsExt1_table
                 BIOSCharacteristicsExt1_lines BIOSCharacteristicsExt1_String).
  { intros v Hnone. unfold BIOSCharacteristicsExt1_String.
    rewrite BIOSCharacteristicsExt1_lines_render, render_no_defined_bit
      by exact Hnone.
    split; reflexivity. }
  assert (E2 : empty_without_defined_bit BIOSCharacteristicsExt2_table
                 BIOSCharacteristicsExt2_lines BIOSCharacteristicsExt2_String).
  { intros v Hnone. unfold BIOSCharacteristicsExt2_String.
    rewrite BIOSCharacteristicsExt2_lines_render, render_no_defined_bit
      by exact Hnone.
    split; reflexivity. }
  assert (S0 : no_defined_bit BIOSCharacteristics_table (Z.shiftl u 32)).
  { apply no_defined_bit_shiftl. unfold BIOSCharacteristics_table.
    repeat constructor; cbn; lia. }
  assert (S2 : no_defined_bit BIOSCharacteristicsExt2_table (Z.shiftl u 5)).
  { apply no_defined_bit_shiftl. unfold BIOSCharacteristicsExt2_table.
    repeat constructor; cbn; lia. }
  split; [split; [exact E0 |] |].
  { intros v v' Hagree. rewrite !BIOSCharacteristics_lines_render.
    f_equal. apply render_ext. exact Hagree. }
  split; [split; [exact E1 |] |].
  { intros v v' Hagree. rewrite !BIOSCharacteristicsExt1_lines_render.
    f_equal. apply render_ext. exact Hagree. }
  split; [split; [exact E2 |] |].
  { intros v v' Hagree. rewrite !BIOSCharacteristicsExt2_lines_render.
    f_equal. apply render_ext. exact Hagree. }
  split; [repeat split |].
  destruct (E0 _ S0) as [L0 T0]. destruct (E2 _ S2) as [L2 T2].
  repeat split; assumption.
Qed.

(** ** Text summary *)

(** A label made of a tab and a character other than a tab does not start
    a string that is empty or doubly indented, nor one that is not
    indented at all. *)
Lemma label_not_prefix_indented (c : ascii) (rest s : string) :
  c <> ascii_of_nat 9 ->
  s = "" \/ (exists s', s = tab +++ tab +++ s') ->
  starts_with (String (ascii_of_nat 9) (String c rest)) s = false.
Proof.
  intros Hc [-> | [s' ->]]; [reflexivity |].
  change (tab +++ tab +++ s')
    with (String (ascii_of_nat 9) (String (ascii_of_nat 9) s')).
  cbn [starts_with]. rewrite Ascii.eqb_refl. cbn [andb].
  apply Ascii.eqb_neq in Hc. rewrite Hc. reflexivity.
Qed.

Lemma label_not_prefix_unindented (c : ascii) (rest s : string) :
  starts_with tab s = false ->
  starts_with (String (ascii_of_nat 9) (String c rest)) s = false.
Proof.
  intros H. destruct s as [| c' s']; [reflexivity |].
  unfold tab in H. cbn [starts_with] in H |- *.
  rewrite andb_true_r in H. rewrite H. reflexivity.
Qed.

Lemma Join_indent_shape (l : list string) :
  Fmt.Join (map indent l) nl = ""
  \/ exists s', Fmt.Join (map indent l) nl = tab +++ tab +++ s'.
Proof.
  destruct l as [| d l']; [left; reflexivity | right].
  unfold Fmt.Join. cbn [map String.concat].
  destruct (map indent l') as [| d' l''].
  - exists d. reflexivity.
  - exists (d +++ nl +++ String.concat nl (d' :: l'')).
    unfold indent. cbn. reflexivity.
Qed.

Lemma BIOSCharacteristicsExt1_String_shape (v : Z) :
  BIOSCharacteristicsExt1_String v = ""
  \/ exists s', BIOSCharacteristicsExt1_String v = tab +++ tab +++ s'.
Proof.
  unfold BIOSCharacteristicsExt1_String.
  rewrite BIOSCharacteristicsExt1_lines_render. apply Join_indent_shape.
Qed.

Lemma BIOSCharacteristicsExt2_String_shape (v : Z) :
  BIOSCharacteristicsExt2_String v = ""
  \/ exists s', BIOSCharacteristicsExt2_String v = tab +++ tab +++ s'.
Proof.
  unfold BIOSCharacteristicsExt2_String.
  rewrite BIOSCharacteristicsExt2_lines_render. apply Join_indent_shape.
Qed.

(** The summary, segment by segment in the order of the appends. *)
Lemma BIOSInformation_lines_segments
  (Header_String : Header -> string) (a : UintWidth) (bi : BIOSInformation) :
  BIOSInformation_lines Header_String a bi =
  [ Header_String (Table_Header (BIOSInformation_Table bi));
    tab +++ "Vendor: " +++ Vendor bi;
    tab +++ "Version: " +++ Version bi;
    tab +++ "Release Date: " +++ ReleaseDate bi ]
  ++ (if StartingAddressSegment bi =? 0 then []
      else
        [ tab +++ "Address: 0x" +++ Fmt.X04 (StartingAddressSegment bi) +++ "0";
          tab +++ "Runtime Size: " +++
            Fmt.d (Z.quot
                     (int a (Z.shiftl
                               (int a (0x10000 - int a (StartingAddressSegment bi)))
                               4))
                     1024) +++ " kB" ])
  ++ [ let bs := GetROMSizeBytes a bi in
       if bs <? 1024 then tab +++ "ROM Size: " +++ Fmt.d bs
       else if bs <? 1024 * 1024 then
         tab +++ "ROM Size: " +++ Fmt.d (bs / 1024) +++ " kB"
       else if bs <? 1024 * 1024 * 1024 then
         tab +++ "ROM Size: " +++ Fmt.d (bs / 1024 / 1024) +++ " MB"
       else tab +++ "ROM Size: " +++ Fmt.d (bs / 1024 / 1024 / 1024) +++ " GB" ]
  ++ [ tab +++ "Characteristics:" +++ nl +++
         BIOSCharacteristics_String (Characteristics bi);
       BIOSCharacteristicsExt1_String (CharacteristicsExt1 bi);
       BIOSCharacteristicsExt2_String (CharacteristicsExt2 bi) ]
  ++ (if (bi_Len bi >=? 0x16) && negb (SystemBIOSMajorRelease bi =? 0xff)
      then
        [ tab +++ "BIOS Revision: " +++ Fmt.d (SystemBIOSMajorRelease bi) +++
            "." +++ Fmt.d (SystemBIOSMinorRelease bi) ]
      else [])
  ++ (if (bi_Len bi >=? 0x18) &&
         negb (EmbeddedControllerFirmwareMajorRelease bi =? 0xff)
      then
        [ tab +++ "Firmware Revision: " +++
            Fmt.d (EmbeddedControllerFirmwareMajorRelease bi) +++ "." +++
            Fmt.d (EmbeddedControllerFirmwareMinorRelease bi) ]
      else []).
Proof.
  unfold BIOSInformation_lines. cbv zeta.
  destruct (StartingAddressSegment bi =? 0);
    destruct (GetROMSizeBytes a bi <? 1024);
    destruct (GetROMSizeBytes a bi <? 1024 * 1024);
    destruct (GetROMSizeBytes a bi <? 1024 * 1024 * 1024);
    destruct ((bi_Len bi >=? 0x16) && negb (SystemBIOSMajorRelease bi =? 0xff));
    destruct ((bi_Len bi >=? 0x18) &&
              negb (EmbeddedControllerFirmwareMajorRelease bi =? 0xff));
    reflexivity.
Qed.

Lemma lines_labelled_cons_off (label x : string) (l : list string) :
  starts_with label x = false ->
  filter (starts_with label) (x :: l) = filter (starts_with label) l.
Proof. intros H. cbn [filter]. rewrite H. reflexivity. Qed.

Lemma lines_labelled_cons_on (label x : string) (l : list string) :
  starts_with label x = true ->
  filter (starts_with label) (x :: l) = x :: filter (starts_with label) l.
Proof. intros H. cbn [filter]. rewrite H. reflexivity. Qed.

(** Decides that a line does not carry a label: the header line is not
    indented, a flag report is empty or doubly indented, and every other
    line differs from the label in its first characters. *)
Ltac label_off Hheader :=
  first
    [ apply label_not_prefix_unindented; apply Hheader
    | apply label_not_prefix_indented;
      [ discriminate
      | first [ apply BIOSCharacteristicsExt1_String_shape
              | apply BIOSCharacteristicsExt2_String_shape ] ]
    | reflexivity ].

(** Filters a summary whose conditions have been decided, line by line. *)
Ltac filter_lines Hheader :=
  repeat match goal with
    | |- context [filter (starts_with ?L) (?x :: ?l)] =>
        first
          [ rewrite (lines_labelled_cons_off L x l) by label_off Hheader
          | rewrite (lines_labelled_cons_on L x l) by reflexivity ]
    end;
  cbn [filter app].

Lemma BIOSRevision_lines_labelled
  (Header_String : Header -> string) (a : UintWidth) (bi : BIOSInformation) :
  header_not_indented Header_String ->
  lines_labelled label_BIOSRevision (BIOSInformation_lines Header_String a bi) =
  if (0x16 <=? bi_Len bi) && negb (SystemBIOSMajorRelease bi =? 0xff)
  then [ BIOSRevision_line (SystemBIOSMajorRelease bi) (SystemBIOSMinorRelease bi) ]
  else [].
Proof.
  intros Hheader. rewrite BIOSInformation_lines_segments.
  unfold lines_labelled. rewrite !filter_app, !Z.geb_leb. cbv zeta.
  destruct (StartingAddressSegment bi =? 0);
    destruct (GetROMSizeBytes a bi <? 1024);
    destruct (GetROMSizeBytes a bi <? 1024 * 1024);
    destruct (GetROMSizeBytes a bi <? 1024 * 1024 * 1024);
    destruct ((0x16 <=? bi_Len bi) && negb (SystemBIOSMajorRelease bi =? 0xff));
    destruct ((0x18 <=? bi_Len bi) &&
              negb (EmbeddedControllerFirmwareMajorRelease bi =? 0xff));
    filter_lines Hheader; reflexivity.
Qed.

(** Among the elements of the slice [lines], one is a BIOS revision line
    exactly when the record is at least 0x16 bytes long and the major release is not 0xFF.  A record
    of 0x15 bytes has none, whatever its release fields hold, and a major
    release of 0xFF suppresses the line in a record of any length. *)
Theorem BIOSRevision_line_gating
  (Header_String : Header -> string) (a : UintWidth) (bi : BIOSInformation) :
  header_not_indented Header_String ->
  let reported :=
    lines_labelled label_BIOSRevision (BIOSInformation_lines Header_String a bi) in
  (reported <> [] <->
   0x16 <= bi_Len bi /\ SystemBIOSMajorRelease bi <> 0xff)
  /\ (0x16 <= bi_Len bi -> SystemBIOSMajorRelease bi <> 0xff ->
      reported =
      [ BIOSRevision_line (SystemBIOSMajorRelease bi) (SystemBIOSMinorRelease bi) ])
  /\ (bi_Len bi = 0x15 -> reported = [])
  /\ (0x16 <= bi_Len bi -> SystemBIOSMajorRelease bi = 0xff -> reported = []).
Proof.
  intros Hheader reported. subst reported.
  rewrite (BIOSRevision_lines_labelled Header_String a bi Hheader).
  destruct (Z.leb_spec 0x16 (bi_Len bi)) as [Hlen | Hlen];
    destruct (Z.eqb_spec (SystemBIOSMajorRelease bi) 0xff) as [Hmaj | Hmaj];
    cbn [andb negb];
    (split; [split; [intros H | intros [H1 H2]] | split; [| split]]);
    intros; try reflexivity; try contradiction; try discriminate; lia.
Qed.

Lemma append_empty_r (s : string) : s +++ "" = s.
Proof. induction s as [| c s IH]; cbn; [reflexivity | rewrite IH; reflexivity]. Qed.

Lemma uint_nonneg (a : UintWidth) (z : Z) : 0 <= uint a z.
Proof. unfold uint. apply Z.mod_pos_bound. destruct a; cbn [UintSize]; lia. Qed.

Lemma GetROMSizeBytes_nonneg (a : UintWidth) (bi : BIOSInformation) :
  0 <= GetROMSizeBytes a bi.
Proof.
  unfold GetROMSizeBytes.
  destruct (negb (ROMSize bi =? 0xff)); cbv zeta; apply uint_nonneg.
Qed.

(** The ROM size line of the summary is the count scaled as the
    specification words it. *)
Lemma ROMSize_text (bs : Z) :
  0 <= bs ->
  (if bs <? 1024 then tab +++ "ROM Size: " +++ Fmt.d bs
   else if bs <? 1024 * 1024 then
     tab +++ "ROM Size: " +++ Fmt.d (bs / 1024) +++ " kB"
   else if bs <? 1024 * 1024 * 1024 then
     tab +++ "ROM Size: " +++ Fmt.d (bs / 1024 / 1024) +++ " MB"
   else tab +++ "ROM Size: " +++ Fmt.d (bs / 1024 / 1024 / 1024) +++ " GB")
  = ROMSize_line bs.
Proof.
  intros Hbs. unfold ROMSize_line, scaled_ROMSize.
  change (1024 * 1024 * 1024) with (1024 ^ 3).
  change (1024 * 1024) with (1024 ^ 2).
  assert (H2 : bs / 1024 / 1024 = bs / 1024 ^ 2).
  { rewrite Z.div_div by lia. reflexivity. }
  assert (H3 : bs / 1024 / 1024 / 1024 = bs / 1024 ^ 3).
  { rewrite !Z.div_div by lia. reflexivity. }
  rewrite H3, H2.
  destruct (bs <? 1024); [| destruct (bs <? 1024 ^ 2); [| destruct (bs <? 1024 ^ 3)]];
    cbn [fst snd]; rewrite ?append_empty_r; reflexivity.
Qed.

(** The runtime size of the summary, computed in [int], is the value the
    specification words. *)
Lemma RuntimeSize_value (a : UintWidth) (segment : Z) :
  is_uint16 segment ->
  Z.quot (int a (Z.shiftl (int a (0x10000 - int a segment)) 4)) 1024 =
  runtime_size_kB segment.
Proof.
  unfold is_uint16, runtime_size_kB. intros Hs.
  rewrite (int_small a segment) by lia.
  rewrite (int_small a (0x10000 - segment)) by lia.
  assert (Hshift : Z.shiftl (0x10000 - segment) 4 = (0x10000 - segment) * 16).
  { rewrite Z.shiftl_mul_pow2 by lia. reflexivity. }
  rewrite Hshift.
  rewrite int_small by lia.
  apply Z.quot_div_nonneg; lia.
Qed.

Lemma Address_lines_labelled
  (Header_String : Header -> string) (a : UintWidth) (bi : BIOSInformation) :
  header_not_indented Header_String ->
  is_uint16 (StartingAddressSegment bi) ->
  lines_labelled label_Address (BIOSInformation_lines Header_String a bi) =
    (if StartingAddressSegment bi =? 0 then []
     else [ Address_line (StartingAddressSegment bi) ])
  /\ lines_labelled label_RuntimeSize (BIOSInformation_lines Header_String a bi) =
    (if StartingAddressSegment bi =? 0 then []
     else [ RuntimeSize_line (StartingAddressSegment bi) ]).
Proof.
  intros Hheader Hseg. rewrite BIOSInformation_lines_segments.
  rewrite (RuntimeSize_value a _ Hseg).
  unfold lines_labelled. rewrite !filter_app. cbv zeta.
  destruct (StartingAddressSegment bi =? 0);
    destruct (GetROMSizeBytes a bi <? 1024);
    destruct (GetROMSizeBytes a bi <? 1024 * 1024);
    destruct (GetROMSizeBytes a bi <? 1024 * 1024 * 1024);
    destruct ((bi_Len bi >=? 0x16) && negb (SystemBIOSMajorRelease bi =? 0xff));
    destruct ((bi_Len bi >=? 0x18) &&
              negb (EmbeddedControllerFirmwareMajorRelease bi =? 0xff));
    (split; filter_lines Hheader; reflexivity).
Qed.

Lemma ROMSize_lines_labelled
  (Header_String : Header -> string) (a : UintWidth) (bi : BIOSInformation) :
  header_not_indented Header_String ->
  lines_labelled label_ROMSize (BIOSInformation_lines Header_String a bi) =
  [ ROMSize_line (GetROMSizeBytes a bi) ].
Proof.
  intros Hheader. rewrite BIOSInformation_lines_segments. cbv zeta.
  rewrite (ROMSize_text _ (GetROMSizeBytes_nonneg a bi)).
  unfold lines_labelled. rewrite !filter_app.
  destruct (StartingAddressSegment bi =? 0);
    destruct ((bi_Len bi >=? 0x16) && negb (SystemBIOSMajorRelease bi =? 0xff));
    destruct ((bi_Len bi >=? 0x18) &&
              negb (EmbeddedControllerFirmwareMajorRelease bi =? 0xff));
    filter_lines Hheader; reflexivity.
Qed.

(** Among the elements of the slice [lines] there are the starting address
    line and the runtime size line exactly when the starting address
    segment is not zero, and the runtime size reported is ((0x10000 - segment) << 4) / 1024
    kilobytes. *)
Theorem Address_lines_gating
  (Header_String : Header -> string) (a : UintWidth) (bi : BIOSInformation) :
  header_not_indented Header_String ->
  is_uint16 (StartingAddressSegment bi) ->
  let segment := StartingAddressSegment bi in
  let lines := BIOSInformation_lines Header_String a bi in
  (lines_labelled label_Address lines <> [] <-> segment <> 0)
  /\ (lines_labelled label_RuntimeSize lines <> [] <-> segment <> 0)
  /\ (segment <> 0 ->
      lines_labelled label_Address lines =
      [ tab +++ "Address: 0x" +++ Fmt.X04 segment +++ "0" ]
      /\ lines_labelled label_RuntimeSize lines =
         [ tab +++ "Runtime Size: " +++
             Fmt.d (Z.shiftl (0x10000 - segment) 4 / 1024) +++ " kB" ]).
Proof.
  intros Hheader Hseg segment lines. subst lines.
  destruct (Address_lines_labelled Header_String a bi Hheader Hseg) as [Ha Hr].
  rewrite Ha, Hr. fold segment.
  destruct (Z.eqb_spec segment 0) as [Hz | Hnz].
  - split; [| split]; [split | split |]; intros; try contradiction.
  - split; [| split]; [split | split |]; intros;
      try assumption; try discriminate.
    split; reflexivity.
Qed.

(** One element of the slice [lines] is a ROM size line, showing the byte
    count of
    [GetROMSizeBytes] in bytes below 1024, in kB below 1024^2, in MB below
    1024^3 and in GB from there on, each by integer division; for a count
    of at least one byte that is the largest unit in which the value shown
    is at least 1. *)
Theorem ROMSize_line_scaling
  (Header_String : Header -> string) (a : UintWidth) (bi : BIOSInformation) :
  header_not_indented Header_String ->
  let bs := GetROMSizeBytes a bi in
  lines_labelled label_ROMSize (BIOSInformation_lines Header_String a bi) =
    [ ROMSize_line bs ]
  /\ 0 <= bs
  /\ (bs < 1024 ->
      ROMSize_line bs = tab +++ "ROM Size: " +++ Fmt.d bs)
  /\ (1024 <= bs < 1024 ^ 2 ->
      ROMSize_line bs = tab +++ "ROM Size: " +++ Fmt.d (bs / 1024) +++ " kB")
  /\ (1024 ^ 2 <= bs < 1024 ^ 3 ->
      ROMSize_line bs = tab +++ "ROM Size: " +++ Fmt.d (bs / 1024 ^ 2) +++ " MB")
  /\ (1024 ^ 3 <= bs ->
      ROMSize_line bs = tab +++ "ROM Size: " +++ Fmt.d (bs / 1024 ^ 3) +++ " GB")
  /\ (1 <= bs ->
      1 <= fst (scaled_ROMSize bs)
      /\ (bs < 1024 ^ 3 -> fst (scaled_ROMSize bs) < 1024)).
Proof.
  intros Hheader bs.
  split; [apply ROMSize_lines_labelled; exact Hheader |].
  split; [apply GetROMSizeBytes_nonneg |].
  generalize bs. clear. intros bs.
  unfold ROMSize_line, scaled_ROMSize.
  change (1024 ^ 2) with 1048576. change (1024 ^ 3) with 1073741824.
  destruct (Z.ltb_spec bs 1024) as [H1 | H1];
    [| destruct (Z.ltb_spec bs 1048576) as [H2 | H2];
       [| destruct (Z.ltb_spec bs 1073741824) as [H3 | H3]]];
    cbn [fst snd];
    (split; [| split; [| split; [| split]]]); intros;
    try lia; rewrite ?append_empty_r; try reflexivity.
  - split; [apply Z.div_le_lower_bound | intros; apply Z.div_lt_upper_bound]; lia.
  - split; [apply Z.div_le_lower_bound | intros; apply Z.div_lt_upper_bound]; lia.
  - split; [apply Z.div_le_lower_bound | intros]; lia.
Qed.

(** ** Decoder *)

(** C5: a table whose type tag is not the BIOS Information tag is rejected
    with the wrong-type error, and no record is returned. *)
Theorem NewBIOSInformation_wrong_type
  (parseStruct : Table -> Z -> bool -> BIOSInformation -> result (Z * BIOSInformation))
  (t : Table) :
  Type' (Table_Header t) <> TableTypeBIOSInformation ->
  NewBIOSInformation parseStruct t = Err (WrongType (Type' (Table_Header t)))
  /\ forall bi : BIOSInformation, NewBIOSInformation parseStruct t <> Ok bi.
Proof.
  intros Hty.
  assert (H : NewBIOSInformation parseStruct t =
              Err (WrongType (Type' (Table_Header t)))).
  { unfold NewBIOSInformation.
    destruct (Z.eqb_spec (Type' (Table_Header t)) TableTypeBIOSInformation)
      as [Heq | _]; [contradiction | reflexivity]. }
  split; [exact H |]. intros bi. rewrite H. discriminate.
Qed.

(** C4, as the code has it: a table that carries the BIOS Information tag
    and is shorter than 0x12 bytes is rejected with the truncated-record
    error, and no record is returned.  The type tag is checked first. *)
Theorem NewBIOSInformation_truncated
  (parseStruct : Table -> Z -> bool -> BIOSInformation -> result (Z * BIOSInformation))
  (t : Table) :
  Type' (Table_Header t) = TableTypeBIOSInformation ->
  Len t < 0x12 ->
  NewBIOSInformation parseStruct t = Err TruncatedRecord
  /\ forall bi : BIOSInformation, NewBIOSInformation parseStruct t <> Ok bi.
Proof.
  intros Hty Hlen.
  assert (H : NewBIOSInformation parseStruct t = Err TruncatedRecord).
  { unfold NewBIOSInformation. rewrite Hty, Z.eqb_refl. cbn [negb].
    destruct (Z.ltb_spec (Len t) 0x12) as [_ | Hge]; [reflexivity | lia]. }
  split; [exact H |]. intros bi. rewrite H. discriminate.
Qed.

(** A table shorter than 0x12 bytes that does not carry the BIOS
    Information tag is rejected with the wrong-type error, not with the
    truncated-record error. *)
Lemma NewBIOSInformation_short_wrong_type :
  Len end_of_table < 0x12
  /\ NewBIOSInformation sample_parseStruct end_of_table =
     Err "invalid table type 127"
  /\ NewBIOSInformation sample_parseStruct end_of_table <> Err TruncatedRecord.
Proof.
  split; [reflexivity |]. split; [reflexivity |]. discriminate.
Qed.

(** ** The theorems at sample records *)

Lemma sample_header_not_indented : header_not_indented sample_Header_String.
Proof. intros h. reflexivity. Defined.

Lemma GetROMSizeBytes_extended_witness :
  let bi := sample_BIOSInformation 0x1a 0xff 0x4010 0xe800 4 6 in
  is_uint16 (ExtendedROMSize bi)
  /\ ROMSize bi = 0xff
  /\ 0x1a <= bi_Len bi
  /\ GetROMSizeBytes W64 bi = 16 * 1073741824.
Proof.
  intros bi.
  assert (Hext : is_uint16 (ExtendedROMSize bi)) by (unfold is_uint16; cbn; lia).
  assert (Hrom : ROMSize bi = 0xff) by reflexivity.
  assert (Hlen : 0x1a <= bi_Len bi) by (vm_compute; discriminate).
  split; [exact Hext |]. split; [exact Hrom |]. split; [exact Hlen |].
  destruct (GetROMSizeBytes_extended bi Hext Hrom Hlen) as (_ & _ & _ & _ & H).
  apply H. reflexivity.
Defined.

Lemma GetROMSizeBytes_fallback_witness :
  let bi := sample_BIOSInformation 0x18 0xff 0 0xe800 4 6 in
  ROMSize bi = 0xff
  /\ bi_Len bi < 0x1a
  /\ GetROMSizeBytes W32 bi = 16777216.
Proof.
  intros bi.
  assert (Hrom : ROMSize bi = 0xff) by reflexivity.
  assert (Hlen : bi_Len bi < 0x1a) by reflexivity.
  split; [exact Hrom |]. split; [exact Hlen |].
  exact (proj1 (GetROMSizeBytes_fallback W32 bi Hrom Hlen)).
Defined.

Lemma GetROMSizeBytes_legacy_witness :
  let bi := sample_BIOSInformation 0x12 0x10 0 0xe800 4 6 in
  is_uint8 (ROMSize bi)
  /\ ROMSize bi <> 0xff
  /\ GetROMSizeBytes W64 bi = 65536 * (0x10 + 1).
Proof.
  intros bi.
  assert (Hrange : is_uint8 (ROMSize bi)) by (unfold is_uint8; cbn; lia).
  assert (Hne : ROMSize bi <> 0xff) by (cbn; discriminate).
  split; [exact Hrange |]. split; [exact Hne |].
  exact (proj1 (GetROMSizeBytes_legacy W64 bi Hrange Hne)).
Defined.

Lemma NewBIOSInformation_wrong_type_witness :
  Type' (Table_Header end_of_table) <> TableTypeBIOSInformation
  /\ NewBIOSInformation sample_parseStruct end_of_table = Err (WrongType 127).
Proof.
  assert (Hty : Type' (Table_Header end_of_table) <> TableTypeBIOSInformation)
    by (cbn; discriminate).
  split; [exact Hty |].
  exact (proj1 (NewBIOSInformation_wrong_type sample_parseStruct end_of_table Hty)).
Defined.

Lemma NewBIOSInformation_truncated_witness :
  let t := sample_Table 0 0x11 in
  Type' (Table_Header t) = TableTypeBIOSInformation
  /\ Len t < 0x12
  /\ NewBIOSInformation sample_parseStruct t = Err TruncatedRecord.
Proof.
  intros t.
  assert (Hty : Type' (Table_Header t) = TableTypeBIOSInformation) by reflexivity.
  assert (Hlen : Len t < 0x12) by reflexivity.
  split; [exact Hty |]. split; [exact Hlen |].
  exact (proj1 (NewBIOSInformation_truncated sample_parseStruct t Hty Hlen)).
Defined.

Lemma BIOSRevision_line_gating_witness :
  let bi := sample_BIOSInformation 0x16 0xff 0 0xe800 4 6 in
  header_not_indented sample_Header_String
  /\ lines_labelled label_BIOSRevision
       (BIOSInformation_lines sample_Header_String W64 bi) =
     [ BIOSRevision_line 4 6 ].
Proof.
  intros bi. split; [exact sample_header_not_indented |].
  destruct (BIOSRevision_line_gating sample_Header_String W64 bi
              sample_header_not_indented) as (_ & H & _).
  apply H.
  - vm_compute. discriminate.
  - cbn. discriminate.
Defined.

Lemma Address_lines_gating_witness :
  let bi := sample_BIOSInformation 0x16 0xff 0 0xe800 4 6 in
  header_not_indented sample_Header_String
  /\ is_uint16 (StartingAddressSegment bi)
  /\ lines_labelled label_RuntimeSize
       (BIOSInformation_lines sample_Header_String W64 bi) =
     [ tab +++ "Runtime Size: 96 kB" ].
Proof.
  intros bi.
  assert (Hseg : is_uint16 (StartingAddressSegment bi))
    by (unfold is_uint16; cbn; lia).
  split; [exact sample_header_not_indented |]. split; [exact Hseg |].
  destruct (Address_lines_gating sample_Header_String W64 bi
              sample_header_not_indented Hseg) as (_ & _ & H).
  apply H. cbn. discriminate.
Defined.

Lemma ROMSize_line_scaling_witness :
  let bi := sample_BIOSInformation 0x1a 0xff 0x4010 0xe800 4 6 in
  header_not_indented sample_Header_String
  /\ lines_labelled label_ROMSize
       (BIOSInformation_lines sample_Header_String W64 bi) =
     [ tab +++ "ROM Size: 16 GB" ].
Proof.
  intros bi. split; [exact sample_header_not_indented |].
  exact (proj1 (ROMSize_line_scaling sample_Header_String W64 bi
                  sample_header_not_indented)).
Defined.

(** * Further properties *)

(** ** The firmware revision line *)

Lemma FirmwareRevision_lines_labelled
  (Header_String : Header -> string) (a : UintWidth) (bi : BIOSInformation) :
  header_not_indented Header_String ->
  lines_labelled label_FirmwareRevision
    (BIOSInformation_lines Header_String a bi) =
  if (0x18 <=? bi_Len bi) &&
     negb (EmbeddedControllerFirmwareMajorRelease bi =? 0xff)
  then [ FirmwareRevision_line
           (EmbeddedControllerFirmwareMajorRelease bi)
           (EmbeddedControllerFirmwareMinorRelease bi) ]
  else [].
Proof.
  intros Hheader. rewrite BIOSInformation_lines_segments.
  unfold lines_labelled. rewrite !filter_app, !Z.geb_leb. cbv zeta.
  destruct (StartingAddressSegment bi =? 0);
    destruct (GetROMSizeBytes a bi <? 1024);
    destruct (GetROMSizeBytes a bi <? 1024 * 1024);
    destruct (GetROMSizeBytes a bi <? 1024 * 1024 * 1024);
    destruct ((0x16 <=? bi_Len bi) && negb (SystemBIOSMajorRelease bi =? 0xff));
    destruct ((0x18 <=? bi_Len bi) &&
              negb (EmbeddedControllerFirmwareMajorRelease bi =? 0xff));
    filter_lines Hheader; reflexivity.
Qed.

(** Among the elements of the slice [lines], one is a firmware revision
    line exactly when the record is at least 0x18 bytes long and the embedded controller major release
    is not 0xFF; the line then reads major.minor in decimal.  A record of
    0x16 or 0x17 bytes has none, whatever the two release fields hold. *)
Theorem FirmwareRevision_line_gating
  (Header_String : Header -> string) (a : UintWidth) (bi : BIOSInformation) :
  header_not_indented Header_String ->
  let major := EmbeddedControllerFirmwareMajorRelease bi in
  let minor := EmbeddedControllerFirmwareMinorRelease bi in
  let reported :=
    lines_labelled label_FirmwareRevision
      (BIOSInformation_lines Header_String a bi) in
  (reported <> [] <-> 0x18 <= bi_Len bi /\ major <> 0xff)
  /\ (0x18 <= bi_Len bi -> major <> 0xff ->
      reported =
      [ tab +++ "Firmware Revision: " +++ Fmt.d major +++ "." +++ Fmt.d minor ])
  /\ (bi_Len bi < 0x18 -> reported = [])
  /\ (major = 0xff -> reported = []).
Proof.
  intros Hheader major minor reported. subst reported.
  rewrite (FirmwareRevision_lines_labelled Header_String a bi Hheader).
  fold major. fold minor.
  destruct (Z.leb_spec 0x18 (bi_Len bi)) as [Hlen | Hlen];
    destruct (Z.eqb_spec major 0xff) as [Hmaj | Hmaj];
    cbn [andb negb];
    (split; [split; [intros H | intros [H1 H2]] | split; [| split]]);
    intros; try reflexivity; try contradiction; try discriminate; lia.
Qed.

Lemma FirmwareRevision_line_gating_witness :
  let bi := sample_firmware 0x18 1 22 in
  header_not_indented sample_Header_String
  /\ lines_labelled label_FirmwareRevision
       (BIOSInformation_lines sample_Header_String W64 bi) =
     [ tab +++ "Firmware Revision: 1.22" ].
Proof.
  intros bi. split; [exact sample_header_not_indented |].
  destruct (FirmwareRevision_line_gating sample_Header_String W64 bi
              sample_header_not_indented) as (_ & H & _).
  apply H.
  - vm_compute. discriminate.
  - cbn. discriminate.
Defined.

(** ** The outcomes of the decoder *)

(** X2: the decoder returns a record exactly when the table carries the
    BIOS Information tag, is at least 0x12 bytes long and [parseStruct],
    run from offset 0 on the record that holds only the table, succeeds;
    the record returned is the one [parseStruct] filled. *)
Theorem NewBIOSInformation_Ok_iff
  (parseStruct : Table -> Z -> bool -> BIOSInformation -> result (Z * BIOSInformation))
  (t : Table) (bi : BIOSInformation) :
  NewBIOSInformation parseStruct t = Ok bi <->
  Type' (Table_Header t) = TableTypeBIOSInformation
  /\ 0x12 <= Len t
  /\ exists off : Z,
       parseStruct t 0 false (zero_BIOSInformation t) = Ok (off, bi).
Proof.
  unfold NewBIOSInformation.
  destruct (Z.eqb_spec (Type' (Table_Header t)) TableTypeBIOSInformation)
    as [Hty | Hty]; cbn [negb].
  - destruct (Z.ltb_spec (Len t) 0x12) as [Hlen | Hlen].
    + split; [discriminate | intros (_ & H & _); lia].
    + destruct (parseStruct t 0 false (zero_BIOSInformation t))
        as [[off bi'] | e].
      * split.
        -- intros H. injection H as ->.
           split; [exact Hty |]. split; [exact Hlen |]. exists off. reflexivity.
        -- intros (_ & _ & off' & H). injection H as _ ->. reflexivity.
      * split; [discriminate | intros (_ & _ & off' & H); discriminate].
  - split; [discriminate | intros (H & _); contradiction].
Qed.

(** X3: the decoder fails in exactly three ways, tried in this order: with
    the wrong-type error for a tag other than 0, with the truncated-record
    error for a table of type 0 shorter than 0x12 bytes, and otherwise with
    the error of [parseStruct], passed on unchanged. *)
Theorem NewBIOSInformation_Err_iff
  (parseStruct : Table -> Z -> bool -> BIOSInformation -> result (Z * BIOSInformation))
  (t : Table) (e : string) :
  NewBIOSInformation parseStruct t = Err e <->
  (Type' (Table_Header t) <> TableTypeBIOSInformation
   /\ e = "invalid table type " +++ Fmt.d (Type' (Table_Header t)))
  \/ (Type' (Table_Header t) = TableTypeBIOSInformation
      /\ Len t < 0x12 /\ e = "required fields missing")
  \/ (Type' (Table_Header t) = TableTypeBIOSInformation
      /\ 0x12 <= Len t
      /\ parseStruct t 0 false (zero_BIOSInformation t) = Err e).
Proof.
  unfold NewBIOSInformation.
  destruct (Z.eqb_spec (Type' (Table_Header t)) TableTypeBIOSInformation)
    as [Hty | Hty]; cbn [negb].
  - destruct (Z.ltb_spec (Len t) 0x12) as [Hlen | Hlen].
    + split.
      * intros H. injection H as <-. right. left. auto.
      * intros [[H _] | [(_ & _ & ->) | (_ & H & _)]];
          [contradiction | reflexivity | lia].
    + destruct (parseStruct t 0 false (zero_BIOSInformation t))
        as [[off bi'] | e'].
      * split; [discriminate |].
        intros [[H _] | [(_ & H & _) | (_ & _ & H)]];
          [contradiction | lia | discriminate].
      * split.
        -- intros H. injection H as ->. right. right. auto.
        -- intros [[H _] | [(_ & H & _) | (_ & _ & H)]];
             [contradiction | lia | injection H as ->; reflexivity].
  - split.
    + intros H. injection H as <-. left. auto.
    + intros [[_ ->] | [(H & _) | (H & _)]];
        [reflexivity | contradiction | contradiction].
Qed.

(** ** The range of the ROM size *)

(** The value the sentinel branch multiplies out, before the reduction to
    the width of [uint], is below [2^44]. *)
Lemma sentinel_product_bound (value : Z) :
  0 <= value ->
  0 <= Z.land value 0x3fff *
       (if Z.shiftr value 14 =? 0 then 1048576
        else if Z.shiftr value 14 =? 1 then 1073741824 else 1)
  <= 16383 * 1073741824.
Proof.
  intros Hv.
  assert (Hmag : 0 <= Z.land value 0x3fff < 2 ^ 14).
  { change 0x3fff with (Z.ones 14). rewrite Z.land_ones by lia.
    apply Z.mod_pos_bound. lia. }
  destruct (Z.shiftr value 14 =? 0); [lia |].
  destruct (Z.shiftr value 14 =? 1); lia.
Qed.

Lemma GetROMSizeBytes_W64_exact (bi : BIOSInformation) :
  is_uint16 (ExtendedROMSize bi) ->
  ROMSize bi = 0xff ->
  let value := if bi_Len bi >=? 0x1a then ExtendedROMSize bi else 0x10 in
  GetROMSizeBytes W64 bi =
  Z.land value 0x3fff *
  (if Z.shiftr value 14 =? 0 then 1048576
   else if Z.shiftr value 14 =? 1 then 1073741824 else 1).
Proof.
  intros Hext Hrom value.
  rewrite (GetROMSizeBytes_sentinel W64 bi Hext Hrom). cbv zeta. fold value.
  apply uint_W64_small.
  assert (Hv : 0 <= value).
  { subst value. unfold is_uint16 in Hext.
    destruct (bi_Len bi >=? 0x1a); lia. }
  pose proof (sentinel_product_bound value Hv). lia.
Qed.

Lemma GetROMSizeBytes_not_sentinel (a : UintWidth) (bi : BIOSInformation) :
  is_uint8 (ROMSize bi) ->
  ROMSize bi <> 0xff ->
  GetROMSizeBytes a bi = 65536 * (ROMSize bi + 1).
Proof.
  unfold is_uint8. intros Hrange Hne. unfold GetROMSizeBytes.
  destruct (Z.eqb_spec (ROMSize bi) 0xff) as [Heq | _]; [contradiction |].
  cbn [negb].
  rewrite (uint_small a (ROMSize bi)) by lia.
  rewrite (uint_small a (ROMSize bi + 1)) by lia.
  apply uint_small. lia.
Qed.

(** X4: for a record whose ROMSize and ExtendedROMSize fit their types,
    the ROM size never exceeds 16383 GB where [uint] has 64 bits, and the
    size computed where [uint] has 32 bits is that value modulo 2^32: the
    two targets agree exactly on the sizes below 4 GB. *)
Theorem GetROMSizeBytes_across_targets (bi : BIOSInformation) :
  is_uint8 (ROMSize bi) ->
  is_uint16 (ExtendedROMSize bi) ->
  0 <= GetROMSizeBytes W64 bi <= 16383 * 1073741824
  /\ GetROMSizeBytes W32 bi = GetROMSizeBytes W64 bi mod 2 ^ 32
  /\ (GetROMSizeBytes W64 bi < 2 ^ 32 ->
      GetROMSizeBytes W32 bi = GetROMSizeBytes W64 bi).
Proof.
  intros Hrom Hext.
  assert (H : 0 <= GetROMSizeBytes W64 bi <= 16383 * 1073741824
              /\ GetROMSizeBytes W32 bi = GetROMSizeBytes W64 bi mod 2 ^ 32).
  { destruct (Z.eq_dec (ROMSize bi) 0xff) as [Hs | Hl].
    - rewrite (GetROMSizeBytes_W64_exact bi Hext Hs).
      rewrite (GetROMSizeBytes_sentinel W32 bi Hext Hs). cbv zeta.
      split; [| reflexivity].
      apply sentinel_product_bound.
      unfold is_uint16 in Hext. destruct (bi_Len bi >=? 0x1a); lia.
    - rewrite !(GetROMSizeBytes_not_sentinel _ bi Hrom Hl).
      unfold is_uint8 in Hrom.
      split; [lia |]. symmetry. apply Z.mod_small. lia. }
  destruct H as [Hb Hm]. split; [exact Hb |]. split; [exact Hm |].
  intros Hsmall. rewrite Hm. apply Z.mod_small. lia.
Qed.

Lemma GetROMSizeBytes_across_targets_witness :
  let bi := sample_BIOSInformation 0x1a 0xff 0x1001 0xe800 4 6 in
  is_uint8 (ROMSize bi)
  /\ is_uint16 (ExtendedROMSize bi)
  /\ GetROMSizeBytes W32 bi = GetROMSizeBytes W64 bi mod 2 ^ 32.
Proof.
  intros bi.
  assert (Hrom : is_uint8 (ROMSize bi)) by (unfold is_uint8; cbn; lia).
  assert (Hext : is_uint16 (ExtendedROMSize bi)) by (unfold is_uint16; cbn; lia).
  split; [exact Hrom |]. split; [exact Hext |].
  destruct (GetROMSizeBytes_across_targets bi Hrom Hext) as (_ & H & _).
  exact H.
Defined.

(** X5: without the sentinel the ROM size is a multiple of 64 kB between
    64 kB and 16 MB - 64 kB, strictly increasing with ROMSize, and so always
    below the 16 MB that the sentinel stands for in a record without the
    extended field. *)
Theorem GetROMSizeBytes_legacy_range
  (a : UintWidth) (bi bi' : BIOSInformation) :
  is_uint8 (ROMSize bi) ->
  ROMSize bi <> 0xff ->
  65536 <= GetROMSizeBytes a bi <= 16777216 - 65536
  /\ GetROMSizeBytes a bi mod 65536 = 0
  /\ (is_uint8 (ROMSize bi') -> ROMSize bi' <> 0xff ->
      ROMSize bi < ROMSize bi' ->
      GetROMSizeBytes a bi < GetROMSizeBytes a bi')
  /\ (ROMSize bi' = 0xff -> bi_Len bi' < 0x1a ->
      GetROMSizeBytes a bi < GetROMSizeBytes a bi').
Proof.
  intros Hrange Hne.
  rewrite (GetROMSizeBytes_not_sentinel a bi Hrange Hne).
  unfold is_uint8 in *.
  split; [lia |]. split; [apply Z.mod_divide; [lia | exists (ROMSize bi + 1); lia] |].
  split.
  - intros Hrange' Hne' Hlt.
    rewrite (GetROMSizeBytes_not_sentinel a bi' Hrange' Hne'). lia.
  - intros Hs Hlen. unfold GetROMSizeBytes. rewrite Hs.
    change (negb (0xff =? 0xff)) with false. cbv iota.
    destruct (Z.geb_spec (bi_Len bi') 0x1a) as [Hge | _]; [lia |].
    cbv zeta. change (Z.shiftr 0x10 14 =? 0) with true. cbv iota.
    change (Z.land 0x10 0x3fff * (1024 * 1024)) with 16777216.
    rewrite uint_small by lia. lia.
Qed.

Lemma GetROMSizeBytes_legacy_range_witness :
  let bi := sample_BIOSInformation 0x12 0xfe 0 0xe800 4 6 in
  is_uint8 (ROMSize bi)
  /\ ROMSize bi <> 0xff
  /\ 65536 <= GetROMSizeBytes W32 bi <= 16777216 - 65536.
Proof.
  intros bi.
  assert (Hrange : is_uint8 (ROMSize bi)) by (unfold is_uint8; cbn; lia).
  assert (Hne : ROMSize bi <> 0xff) by (cbn; discriminate).
  split; [exact Hrange |]. split; [exact Hne |].
  exact (proj1 (GetROMSizeBytes_legacy_range W32 bi bi Hrange Hne)).
Defined.

(** X6: where [uint] has 64 bits, the ROM size of a record whose fields fit
    their types is zero exactly when ROMSize is the sentinel, the record is
    at least 0x1A bytes long and the magnitude bits of ExtendedROMSize are
    all clear, whatever the unit bits are. *)
Theorem GetROMSizeBytes_zero_iff (bi : BIOSInformation) :
  is_uint8 (ROMSize bi) ->
  is_uint16 (ExtendedROMSize bi) ->
  GetROMSizeBytes W64 bi = 0 <->
  ROMSize bi = 0xff /\ 0x1a <= bi_Len bi /\ Z.land (ExtendedROMSize bi) 0x3fff = 0.
Proof.
  intros Hrom Hext.
  destruct (Z.eq_dec (ROMSize bi) 0xff) as [Hs | Hl].
  - rewrite (GetROMSizeBytes_W64_exact bi Hext Hs). cbv zeta.
    destruct (Z.geb_spec (bi_Len bi) 0x1a) as [Hge | Hlt].
    + assert (Hmult : 0 < (if Z.shiftr (ExtendedROMSize bi) 14 =? 0 then 1048576
                           else if Z.shiftr (ExtendedROMSize bi) 14 =? 1
                                then 1073741824 else 1)).
      { destruct (Z.shiftr (ExtendedROMSize bi) 14 =? 0); [lia |].
        destruct (Z.shiftr (ExtendedROMSize bi) 14 =? 1); lia. }
      split.
      * intros H. split; [exact Hs |]. split; [lia |].
        apply Z.eq_mul_0 in H. destruct H as [H | H]; [exact H | lia].
      * intros (_ & _ & H). rewrite H. reflexivity.
    + split; [intros H; vm_compute in H; discriminate | intros (_ & H & _); lia].
  - rewrite (GetROMSizeBytes_not_sentinel W64 bi Hrom Hl).
    unfold is_uint8 in Hrom.
    split; [lia | intros (H & _); contradiction].
Qed.

Lemma GetROMSizeBytes_zero_iff_witness :
  let bi := sample_BIOSInformation 0x1a 0xff 0x4000 0xe800 4 6 in
  is_uint8 (ROMSize bi)
  /\ is_uint16 (ExtendedROMSize bi)
  /\ GetROMSizeBytes W64 bi = 0.
Proof.
  intros bi.
  assert (Hrom : is_uint8 (ROMSize bi)) by (unfold is_uint8; cbn; lia).
  assert (Hext : is_uint16 (ExtendedROMSize bi)) by (unfold is_uint16; cbn; lia).
  split; [exact Hrom |]. split; [exact Hext |].
  apply (GetROMSizeBytes_zero_iff bi Hrom Hext).
  split; [reflexivity |]. split; [vm_compute; discriminate | reflexivity].
Defined.

(** ** The ROM size as the summary shows it *)

(** The text after the label, by the range of the byte count. *)
Lemma ROMSize_line_cases (bs : Z) :
  (bs < 1024 -> ROMSize_line bs = tab +++ "ROM Size: " +++ Fmt.d bs)
  /\ (1024 <= bs < 1048576 ->
      ROMSize_line bs = tab +++ "ROM Size: " +++ Fmt.d (bs / 1024) +++ " kB")
  /\ (1048576 <= bs < 1073741824 ->
      ROMSize_line bs = tab +++ "ROM Size: " +++ Fmt.d (bs / 1048576) +++ " MB")
  /\ (1073741824 <= bs ->
      ROMSize_line bs = tab +++ "ROM Size: " +++ Fmt.d (bs / 1073741824) +++ " GB").
Proof.
  unfold ROMSize_line, scaled_ROMSize.
  change (1024 ^ 2) with 1048576. change (1024 ^ 3) with 1073741824.
  destruct (Z.ltb_spec bs 1024) as [H1 | H1];
    [| destruct (Z.ltb_spec bs 1048576) as [H2 | H2];
       [| destruct (Z.ltb_spec bs 1073741824) as [H3 | H3]]];
    cbn [fst snd];
    (split; [| split; [| split]]); intros;
    try lia; rewrite ?append_empty_r; reflexivity.
Qed.

(** For a record without the sentinel the ROM size element of the slice
    [lines] is never in bytes or GB: it shows 64 * (ROMSize + 1) kB when ROMSize is
    below 15 and (ROMSize + 1) / 16 MB, rounded down, from 15 on. *)
Theorem ROMSize_line_legacy
  (Header_String : Header -> string) (a : UintWidth) (bi : BIOSInformation) :
  header_not_indented Header_String ->
  is_uint8 (ROMSize bi) ->
  ROMSize bi <> 0xff ->
  lines_labelled label_ROMSize (BIOSInformation_lines Header_String a bi) =
  [ if ROMSize bi <? 15
    then tab +++ "ROM Size: " +++ Fmt.d (64 * (ROMSize bi + 1)) +++ " kB"
    else tab +++ "ROM Size: " +++ Fmt.d ((ROMSize bi + 1) / 16) +++ " MB" ].
Proof.
  intros Hheader Hrange Hne.
  rewrite (ROMSize_lines_labelled Header_String a bi Hheader).
  rewrite (GetROMSizeBytes_not_sentinel a bi Hrange Hne).
  unfold is_uint8 in Hrange. f_equal.
  destruct (ROMSize_line_cases (65536 * (ROMSize bi + 1))) as (_ & HkB & HMB & _).
  destruct (Z.ltb_spec (ROMSize bi) 15) as [Hlt | Hge].
  - rewrite HkB by lia.
    replace (65536 * (ROMSize bi + 1) / 1024) with (64 * (ROMSize bi + 1));
      [reflexivity |].
    replace (65536 * (ROMSize bi + 1)) with (64 * (ROMSize bi + 1) * 1024) by lia.
    rewrite Z.div_mul by lia. reflexivity.
  - rewrite HMB by lia.
    replace (65536 * (ROMSize bi + 1) / 1048576) with ((ROMSize bi + 1) / 16);
      [reflexivity |].
    change 1048576 with (65536 * 16).
    rewrite Z.div_mul_cancel_l by lia. reflexivity.
Qed.

Lemma ROMSize_line_legacy_witness :
  let bi := sample_BIOSInformation 0x12 0x10 0 0xe800 4 6 in
  header_not_indented sample_Header_String
  /\ is_uint8 (ROMSize bi)
  /\ ROMSize bi <> 0xff
  /\ lines_labelled label_ROMSize
       (BIOSInformation_lines sample_Header_String W64 bi) =
     [ tab +++ "ROM Size: 1 MB" ].
Proof.
  intros bi.
  assert (Hrange : is_uint8 (ROMSize bi)) by (unfold is_uint8; cbn; lia).
  assert (Hne : ROMSize bi <> 0xff) by (cbn; discriminate).
  split; [exact sample_header_not_indented |].
  split; [exact Hrange |]. split; [exact Hne |].
  exact (ROMSize_line_legacy sample_Header_String W64 bi
           sample_header_not_indented Hrange Hne).
Defined.

(** Where [uint] has 64 bits, the ROM size element of the slice [lines] of
    a record that carries the extended ROM size shows its magnitude in the unit it was encoded in
    whenever that fits: a magnitude of at least 1 in GB is shown as such, a
    magnitude in MB is shown in MB below 1024 and in GB (divided by 1024)
    from there on, a magnitude with a reserved unit is shown as that many
    bytes below 1024 and in kB from there on, and a zero magnitude is shown
    as 0 bytes. *)
Theorem ROMSize_line_extended
  (Header_String : Header -> string) (bi : BIOSInformation) :
  header_not_indented Header_String ->
  is_uint16 (ExtendedROMSize bi) ->
  ROMSize bi = 0xff ->
  0x1a <= bi_Len bi ->
  let unit := Z.shiftr (ExtendedROMSize bi) 14 in
  let magnitude := Z.land (ExtendedROMSize bi) 0x3fff in
  let shown :=
    lines_labelled label_ROMSize (BIOSInformation_lines Header_String W64 bi) in
  (unit = 1 -> 1 <= magnitude ->
   shown = [ tab +++ "ROM Size: " +++ Fmt.d magnitude +++ " GB" ])
  /\ (unit = 0 -> 1 <= magnitude < 1024 ->
      shown = [ tab +++ "ROM Size: " +++ Fmt.d magnitude +++ " MB" ])
  /\ (unit = 0 -> 1024 <= magnitude ->
      shown = [ tab +++ "ROM Size: " +++ Fmt.d (magnitude / 1024) +++ " GB" ])
  /\ (unit = 2 \/ unit = 3 -> magnitude < 1024 ->
      shown = [ tab +++ "ROM Size: " +++ Fmt.d magnitude ])
  /\ (unit = 2 \/ unit = 3 -> 1024 <= magnitude ->
      shown = [ tab +++ "ROM Size: " +++ Fmt.d (magnitude / 1024) +++ " kB" ])
  /\ (magnitude = 0 -> shown = [ tab +++ "ROM Size: 0" ]).
Proof.
  intros Hheader Hext Hrom Hlen unit magnitude shown. subst shown.
  rewrite (ROMSize_lines_labelled Header_String W64 bi Hheader).
  pose proof (GetROMSizeBytes_W64_exact bi Hext Hrom) as Hbs. cbv zeta in Hbs.
  destruct (Z.geb_spec (bi_Len bi) 0x1a) as [_ | Hlt]; [| lia].
  fold unit in Hbs. fold magnitude in Hbs. rewrite Hbs.
  pose proof (extended_unit_magnitude _ Hext) as [Hunit Hmag].
  fold unit in Hunit. fold magnitude in Hmag.
  repeat match goal with |- _ /\ _ => split end.
  - intros Hu Hm. rewrite Hu. cbn [Z.eqb Pos.eqb]. f_equal.
    destruct (ROMSize_line_cases (magnitude * 1073741824)) as (_ & _ & _ & H).
    rewrite H by lia. rewrite Z.div_mul by lia. reflexivity.
  - intros Hu Hm. rewrite Hu. cbn [Z.eqb]. f_equal.
    destruct (ROMSize_line_cases (magnitude * 1048576)) as (_ & _ & H & _).
    rewrite H by lia. rewrite Z.div_mul by lia. reflexivity.
  - intros Hu Hm. rewrite Hu. cbn [Z.eqb]. f_equal.
    destruct (ROMSize_line_cases (magnitude * 1048576)) as (_ & _ & _ & H).
    rewrite H by lia.
    change 1073741824 with (1024 * 1048576).
    rewrite Z.div_mul_cancel_r by lia. reflexivity.
  - intros Hu Hm.
    assert (Hmult : (if unit =? 0 then 1048576
                     else if unit =? 1 then 1073741824 else 1) = 1).
    { destruct Hu as [-> | ->]; reflexivity. }
    rewrite Hmult, Z.mul_1_r. f_equal.
    destruct (ROMSize_line_cases magnitude) as (H & _). apply H. lia.
  - intros Hu Hm.
    assert (Hmult : (if unit =? 0 then 1048576
                     else if unit =? 1 then 1073741824 else 1) = 1).
    { destruct Hu as [-> | ->]; reflexivity. }
    rewrite Hmult, Z.mul_1_r. f_equal.
    destruct (ROMSize_line_cases magnitude) as (_ & H & _). apply H. lia.
  - intros Hm. rewrite Hm. reflexivity.
Qed.

Lemma ROMSize_line_extended_witness :
  let bi := sample_BIOSInformation 0x1a 0xff 0x0800 0xe800 4 6 in
  header_not_indented sample_Header_String
  /\ is_uint16 (ExtendedROMSize bi)
  /\ ROMSize bi = 0xff
  /\ 0x1a <= bi_Len bi
  /\ lines_labelled label_ROMSize
       (BIOSInformation_lines sample_Header_String W64 bi) =
     [ tab +++ "ROM Size: 2 GB" ].
Proof.
  intros bi.
  assert (Hext : is_uint16 (ExtendedROMSize bi)) by (unfold is_uint16; cbn; lia).
  assert (Hrom : ROMSize bi = 0xff) by reflexivity.
  assert (Hlen : 0x1a <= bi_Len bi) by (vm_compute; discriminate).
  split; [exact sample_header_not_indented |].
  split; [exact Hext |]. split; [exact Hrom |]. split; [exact Hlen |].
  destruct (ROMSize_line_extended sample_Header_String bi
              sample_header_not_indented Hext Hrom Hlen) as (_ & _ & H & _).
  apply H; [reflexivity | vm_compute; discriminate].
Defined.

(** ** What the flag renderers report *)

Lemma indent_inj (d d' : string) : indent d = indent d' -> d = d'.
Proof. unfold indent, tab. cbn. intros H. injection H as H. exact H. Qed.

Lemma render_reports (table : list (Z * string)) (v : Z) (d : string) :
  In (indent d) (map indent (render table v)) <->
  exists i : Z, In (i, d) table /\ Z.testbit v i = true.
Proof.
  split.
  - intros H. apply in_map_iff in H. destruct H as (d' & Heq & Hin).
    apply indent_inj in Heq. subst d'.
    unfold render in Hin. apply in_map_iff in Hin.
    destruct Hin as ([i d0] & Hsnd & Hf). cbn in Hsnd. subst d0.
    apply filter_In in Hf. destruct Hf as [Hin Hbit].
    exists i. split; [exact Hin | exact Hbit].
  - intros (i & Hin & Hbit). apply in_map. apply (render_In table v i d Hin Hbit).
Qed.

Lemma render_nil_iff (table : list (Z * string)) (v : Z) :
  map indent (render table v) = [] <-> no_defined_bit table v.
Proof.
  split.
  - intros Hnil i d Hin. destruct (Z.testbit v i) eqn:Hbit; [| reflexivity].
    exfalso.
    assert (H : In (indent d) (map indent (render table v))).
    { apply render_reports. exists i. split; assumption. }
    rewrite Hnil in H. contradiction.
  - intros Hnone. rewrite (render_no_defined_bit table v Hnone). reflexivity.
Qed.

Lemma Join_indent_empty_iff (l : list string) :
  Fmt.Join (map indent l) nl = "" <-> l = [].
Proof.
  split.
  - destruct l as [| d l']; [reflexivity |]. intros H. exfalso.
    unfold Fmt.Join in H. cbn [map String.concat] in H.
    destruct (map indent l'); unfold indent, tab in H; cbn in H; discriminate.
  - intros ->. reflexivity.
Qed.

Lemma land_ones_zero_iff (v n : Z) :
  0 <= n ->
  Z.land v (Z.ones n) = 0 <->
  forall i : Z, 0 <= i < n -> Z.testbit v i = false.
Proof.
  intros Hn. split.
  - intros Hz i Hi.
    assert (H : Z.testbit (Z.land v (Z.ones n)) i = false)
      by (rewrite Hz; apply Z.bits_0).
    rewrite Z.land_spec, Z.ones_spec_low, andb_true_r in H by lia. exact H.
  - intros Hbits. apply Z.bits_inj'. intros i Hi.
    rewrite Z.land_spec, Z.bits_0.
    destruct (Z.lt_ge_cases i n) as [Hlt | Hge].
    + rewrite Hbits by lia. reflexivity.
    + rewrite Z.ones_spec_high by lia. apply andb_false_r.
Qed.

(** A table that defines the bits 0 .. n-1 has none of them set in [v]
    exactly when [v] is zero under the mask of the low [n] bits. *)
Lemma no_defined_bit_mask (table : list (Z * string)) (n : nat) (v : Z) :
  map fst table = map Z.of_nat (seq 0 n) ->
  no_defined_bit table v <-> Z.land v (Z.ones (Z.of_nat n)) = 0.
Proof.
  intros Hbits. rewrite land_ones_zero_iff by lia. split.
  - intros Hnone i Hi.
    assert (Hin : In i (map fst table)).
    { rewrite Hbits. apply in_map_iff. exists (Z.to_nat i).
      split; [lia | apply in_seq; lia]. }
    apply in_map_iff in Hin. destruct Hin as ([j d] & Hj & Hin).
    cbn in Hj. subst j. apply (Hnone i d Hin).
  - intros Hlow i d Hin. apply Hlow.
    assert (Hi : In i (map fst table)) by (apply (in_map fst _ (i, d)); exact Hin).
    rewrite Hbits in Hi. apply in_map_iff in Hi. destruct Hi as (k & Hk & Hseq).
    apply in_seq in Hseq. lia.
Qed.

(** X9: each renderer reports a description exactly when a bit carrying
    that description in its table is set in the vector: no set bit of the
    table goes unreported and no line is reported without its bit. *)
Theorem flag_lines_report_set_bits :
  reports_set_bits BIOSCharacteristics_table BIOSCharacteristics_lines
  /\ reports_set_bits BIOSCharacteristicsExt1_table BIOSCharacteristicsExt1_lines
  /\ reports_set_bits BIOSCharacteristicsExt2_table BIOSCharacteristicsExt2_lines.
Proof.
  split; [| split]; intros v d.
  - rewrite BIOSCharacteristics_lines_render. apply render_reports.
  - rewrite BIOSCharacteristicsExt1_lines_render. apply render_reports.
  - rewrite BIOSCharacteristicsExt2_lines_render. apply render_reports.
Qed.

(** X10: a flag report is empty, as a slice and as a text, exactly when the
    vector is zero under the mask of the defined bits: the low 32 bits of
    the characteristics, all 8 bits of the first extension byte, the low 5
    bits of the second. *)
Theorem flag_lines_empty_iff (v : Z) :
  ((BIOSCharacteristics_lines v = [] <-> Z.land v 0xffffffff = 0)
   /\ (BIOSCharacteristics_String v = "" <-> Z.land v 0xffffffff = 0))
  /\ ((BIOSCharacteristicsExt1_lines v = [] <-> Z.land v 0xff = 0)
      /\ (BIOSCharacteristicsExt1_String v = "" <-> Z.land v 0xff = 0))
  /\ ((BIOSCharacteristicsExt2_lines v = [] <-> Z.land v 0x1f = 0)
      /\ (BIOSCharacteristicsExt2_String v = "" <-> Z.land v 0x1f = 0)).
Proof.
  assert (M0 : no_defined_bit BIOSCharacteristics_table v <->
               Z.land v 0xffffffff = 0)
    by (apply (no_defined_bit_mask _ 32); reflexivity).
  assert (M1 : no_defined_bit BIOSCharacteristicsExt1_table v <->
               Z.land v 0xff = 0)
    by (apply (no_defined_bit_mask _ 8); reflexivity).
  assert (M2 : no_defined_bit BIOSCharacteristicsExt2_table v <->
               Z.land v 0x1f = 0)
    by (apply (no_defined_bit_mask _ 5); reflexivity).
  split; [| split]; split.
  - rewrite BIOSCharacteristics_lines_render, render_nil_iff. exact M0.
  - unfold BIOSCharacteristics_String.
    rewrite BIOSCharacteristics_lines_render, Join_indent_empty_iff, <- M0.
    rewrite <- render_nil_iff.
    split; [intros ->; reflexivity | apply map_eq_nil].
  - rewrite BIOSCharacteristicsExt1_lines_render, render_nil_iff. exact M1.
  - unfold BIOSCharacteristicsExt1_String.
    rewrite BIOSCharacteristicsExt1_lines_render, Join_indent_empty_iff, <- M1.
    rewrite <- render_nil_iff.
    split; [intros ->; reflexivity | apply map_eq_nil].
  - rewrite BIOSCharacteristicsExt2_lines_render, render_nil_iff. exact M2.
  - unfold BIOSCharacteristicsExt2_String.
    rewrite BIOSCharacteristicsExt2_lines_render, Join_indent_empty_iff, <- M2.
    rewrite <- render_nil_iff.
    split; [intros ->; reflexivity | apply map_eq_nil].
Qed.

(** ** The runtime size *)

(** When the starting address segment is not zero, the runtime size in
    the slice [lines] is the distance in whole kB from the starting
    address, 16 * segment, to the 1 MB boundary, rounded down: it lies
    between 0 and 1023 and is exact when the segment is a multiple of 64. *)
Theorem RuntimeSize_to_1MB
  (Header_String : Header -> string) (a : UintWidth) (bi : BIOSInformation) :
  header_not_indented Header_String ->
  is_uint16 (StartingAddressSegment bi) ->
  StartingAddressSegment bi <> 0 ->
  exists k : Z,
    lines_labelled label_RuntimeSize (BIOSInformation_lines Header_String a bi) =
    [ tab +++ "Runtime Size: " +++ Fmt.d k +++ " kB" ]
    /\ 0 <= k <= 1023
    /\ 0 <= 0x100000 - (16 * StartingAddressSegment bi + 1024 * k) < 1024
    /\ (StartingAddressSegment bi mod 64 = 0 ->
        16 * StartingAddressSegment bi + 1024 * k = 0x100000).
Proof.
  intros Hheader Hseg Hnz.
  destruct (Address_lines_labelled Header_String a bi Hheader Hseg) as [_ Hr].
  destruct (Z.eqb_spec (StartingAddressSegment bi) 0) as [Hz | _];
    [contradiction |].
  exists (runtime_size_kB (StartingAddressSegment bi)).
  split; [exact Hr |].
  unfold runtime_size_kB, is_uint16 in *.
  rewrite Z.shiftl_mul_pow2 by lia. change (2 ^ 4) with 16.
  pose proof (Z.div_mod ((0x10000 - StartingAddressSegment bi) * 16) 1024) as Hdm.
  pose proof (Z.mod_pos_bound ((0x10000 - StartingAddressSegment bi) * 16) 1024)
    as Hmb.
  split; [lia |]. split; [lia |].
  intros H64.
  pose proof (Z.div_mod (StartingAddressSegment bi) 64) as Hs.
  assert (Hr0 : ((0x10000 - StartingAddressSegment bi) * 16) mod 1024 = 0).
  { apply Z.mod_divide; [lia |].
    exists (1024 - StartingAddressSegment bi / 64). lia. }
  lia.
Qed.

Lemma RuntimeSize_to_1MB_witness :
  let bi := sample_BIOSInformation 0x16 0xff 0 0xe800 4 6 in
  header_not_indented sample_Header_String
  /\ is_uint16 (StartingAddressSegment bi)
  /\ StartingAddressSegment bi <> 0
  /\ exists k : Z,
       lines_labelled label_RuntimeSize
         (BIOSInformation_lines sample_Header_String W64 bi) =
       [ tab +++ "Runtime Size: " +++ Fmt.d k +++ " kB" ]
       /\ 0 <= k <= 1023.
Proof.
  intros bi.
  assert (Hseg : is_uint16 (StartingAddressSegment bi))
    by (unfold is_uint16; cbn; lia).
  assert (Hnz : StartingAddressSegment bi <> 0) by (cbn; discriminate).
  split; [exact sample_header_not_indented |].
  split; [exact Hseg |]. split; [exact Hnz |].
  destruct (RuntimeSize_to_1MB sample_Header_String W64 bi
              sample_header_not_indented Hseg Hnz) as (k & Hk & Hb & _).
  exists k. split; [exact Hk | exact Hb].
Defined.

(** ** The shape of the summary *)

Lemma Join_cons_cons (x y : string) (l : list string) :
  Fmt.Join (x :: y :: l) nl = x +++ nl +++ Fmt.Join (y :: l) nl.
Proof. reflexivity. Qed.

(** X12: every summary opens with the header, vendor, version and release
    date, in this order and each on a line of its own in the text; it always
    holds the three flag reports, empty or not; and it has 8 elements plus
    two for a starting address, one for a BIOS revision and one for a
    firmware revision, so between 8 and 12. *)
Theorem BIOSInformation_lines_shape
  (Header_String : Header -> string) (a : UintWidth) (bi : BIOSInformation) :
  let lines := BIOSInformation_lines Header_String a bi in
  let fixed :=
    [ Header_String (Table_Header (BIOSInformation_Table bi));
      tab +++ "Vendor: " +++ Vendor bi;
      tab +++ "Version: " +++ Version bi;
      tab +++ "Release Date: " +++ ReleaseDate bi ] in
  firstn 4 lines = fixed
  /\ BIOSInformation_String Header_String a bi =
     Header_String (Table_Header (BIOSInformation_Table bi)) +++ nl +++
     (tab +++ "Vendor: " +++ Vendor bi) +++ nl +++
     (tab +++ "Version: " +++ Version bi) +++ nl +++
     (tab +++ "Release Date: " +++ ReleaseDate bi) +++ nl +++
     Fmt.Join (skipn 4 lines) nl
  /\ (In (tab +++ "Characteristics:" +++ nl +++
            BIOSCharacteristics_String (Characteristics bi)) lines
      /\ In (BIOSCharacteristicsExt1_String (CharacteristicsExt1 bi)) lines
      /\ In (BIOSCharacteristicsExt2_String (CharacteristicsExt2 bi)) lines)
  /\ List.length lines =
     (8
      + (if (StartingAddressSegment bi =? 0)%Z then 0 else 2)
      + (if ((0x16 <=? bi_Len bi) && negb (SystemBIOSMajorRelease bi =? 0xff))%Z
         then 1 else 0)
      + (if ((0x18 <=? bi_Len bi) &&
             negb (EmbeddedControllerFirmwareMajorRelease bi =? 0xff))%Z
         then 1 else 0))%nat
  /\ (8 <= List.length lines <= 12)%nat.
Proof.
  intros lines fixed. subst lines fixed. unfold BIOSInformation_String.
  rewrite BIOSInformation_lines_segments. rewrite !Z.geb_leb.
  cbv zeta.
  set (rom := if GetROMSizeBytes a bi <? 1024 then _ else _).
  destruct (StartingAddressSegment bi =? 0);
    destruct ((0x16 <=? bi_Len bi) && negb (SystemBIOSMajorRelease bi =? 0xff));
    destruct ((0x18 <=? bi_Len bi) &&
              negb (EmbeddedControllerFirmwareMajorRelease bi =? 0xff));
    cbn [app firstn skipn List.length];
    (split; [reflexivity |]);
    (split; [rewrite !Join_cons_cons; reflexivity |]);
    (split; [cbn [In]; tauto |]);
    (split; [reflexivity | lia]).
Qed.

(** ** Repeated lines in a flag report *)

Lemma NoDup_map_indent (l : list string) : NoDup l -> NoDup (map indent l).
Proof.
  induction 1 as [| d l Hnin Hnd IH]; cbn [map]; constructor; [| exact IH].
  intros Hin. apply in_map_iff in Hin. destruct Hin as (d' & Heq & Hin).
  apply indent_inj in Heq. subst d'. contradiction.
Qed.

Lemma NoDup_render (table : list (Z * string)) (v : Z) :
  NoDup (map snd table) -> NoDup (map indent (render table v)).
Proof.
  intros Hnd. apply NoDup_map_indent. unfold render.
  induction table as [| [i d] t IH]; [constructor |].
  cbn [map snd] in Hnd. apply NoDup_cons_iff in Hnd. destruct Hnd as [Hnin Hnd].
  cbn [filter fst]. destruct (Z.testbit v i); [| apply IH; exact Hnd].
  cbn [map snd]. constructor; [| apply IH; exact Hnd].
  intros Hin. apply Hnin. apply in_map_iff in Hin.
  destruct Hin as (e & He & Hf). apply filter_In in Hf.
  apply in_map_iff. exists e. split; [exact He | apply Hf].
Qed.

Lemma NoDup_by_nodup (l : list string) : nodup string_dec l = l -> NoDup l.
Proof. intros H. rewrite <- H. apply NoDup_nodup. Qed.

Lemma BIOSCharacteristics_render_split (v : Z) :
  map indent (render BIOSCharacteristics_table v) =
  (if Z.testbit v 0 then [indent "Reserved"] else []) ++
  (if Z.testbit v 1 then [indent "Reserved"] else []) ++
  map indent (render (tl (tl BIOSCharacteristics_table)) v).
Proof.
  change BIOSCharacteristics_table
    with ((0, "Reserved") :: (1, "Reserved") :: tl (tl BIOSCharacteristics_table))
    at 1.
  rewrite render_cons, render_cons. reflexivity.
Qed.

Lemma BIOSCharacteristics_Reserved_twice_only :
  NoDup ("Reserved" :: map snd (tl (tl BIOSCharacteristics_table))).
Proof. apply NoDup_by_nodup. vm_compute. reflexivity. Qed.

(** X13: the reports of the two extension bytes never hold the same line
    twice.  The characteristics report does so in one case only: bits 0 and
    1 are both described as Reserved, and the report holds that line twice
    exactly when both are set. *)
Theorem flag_lines_repeats (v : Z) :
  NoDup (BIOSCharacteristicsExt1_lines v)
  /\ NoDup (BIOSCharacteristicsExt2_lines v)
  /\ (NoDup (BIOSCharacteristics_lines v) <->
      ~ (Z.testbit v 0 = true /\ Z.testbit v 1 = true))
  /\ (Z.testbit v 0 = true -> Z.testbit v 1 = true ->
      exists rest : list string,
        BIOSCharacteristics_lines v =
        (tab +++ tab +++ "Reserved") :: (tab +++ tab +++ "Reserved") :: rest).
Proof.
  split; [| split].
  - rewrite BIOSCharacteristicsExt1_lines_render. apply NoDup_render.
    apply NoDup_by_nodup. vm_compute. reflexivity.
  - rewrite BIOSCharacteristicsExt2_lines_render. apply NoDup_render.
    apply NoDup_by_nodup. vm_compute. reflexivity.
  - rewrite BIOSCharacteristics_lines_render, BIOSCharacteristics_render_split.
    pose proof BIOSCharacteristics_Reserved_twice_only as Hnd.
    apply NoDup_cons_iff in Hnd. destruct Hnd as [Hnin Hnd].
    assert (Htail : NoDup (map indent
                             (render (tl (tl BIOSCharacteristics_table)) v)))
      by (apply NoDup_render; exact Hnd).
    assert (Hout : ~ In (indent "Reserved")
                       (map indent
                          (render (tl (tl BIOSCharacteristics_table)) v))).
    { intros Hin. apply render_reports in Hin. destruct Hin as (i & Hin & _).
      apply Hnin. apply (in_map snd _ (i, "Reserved")). exact Hin. }
    generalize dependent
      (map indent (render (tl (tl BIOSCharacteristics_table)) v)).
    intros tail Htail Hout.
    destruct (Z.testbit v 0); destruct (Z.testbit v 1); cbn [app].
    + split.
      * split.
        -- intros H _. apply NoDup_cons_iff in H. destruct H as [H _].
           apply H. left. reflexivity.
        -- intros H. exfalso. apply H. split; reflexivity.
      * intros _ _. exists tail. reflexivity.
    + split; [| intros _ H; discriminate H].
      split; [intros _ [_ H]; discriminate H |].
      intros _. constructor; assumption.
    + split; [| intros H; discriminate H].
      split; [intros _ [H _]; discriminate H |].
      intros _. constructor; assumption.
    + split; [| intros H; discriminate H].
      split; [intros _ [H _]; discriminate H |].
      intros _. exact Htail.
Qed.

(** * The summary as a text *)

(** ** Lines of a joined text *)

Lemma text_lines_nonempty (s : string) : text_lines s <> [].
Proof.
  induction s as [| c s IH]; cbn [text_lines]; [discriminate |].
  destruct (Ascii.eqb c (ascii_of_nat 10)); [discriminate |].
  destruct (text_lines s); discriminate.
Qed.

Lemma text_lines_single (s : string) :
  single_line s = true -> text_lines s = [s].
Proof.
  induction s as [| c s IH]; [reflexivity |].
  cbn [single_line text_lines]. intros H.
  apply andb_true_iff in H. destruct H as [Hc Hs].
  apply negb_true_iff in Hc. rewrite Hc, (IH Hs). reflexivity.
Qed.

Lemma text_lines_append_nl (e t : string) :
  text_lines (e +++ nl +++ t) = text_lines e ++ text_lines t.
Proof.
  induction e as [| c e IH].
  - reflexivity.
  - change (String c e +++ nl +++ t) with (String c (e +++ nl +++ t)).
    cbn [text_lines]. rewrite IH.
    destruct (Ascii.eqb c (ascii_of_nat 10)); [reflexivity |].
    pose proof (text_lines_nonempty e) as Hne.
    destruct (text_lines e) as [| l ls]; [contradiction | reflexivity].
Qed.

Lemma text_lines_Join (elems : list string) :
  elems <> [] ->
  text_lines (Fmt.Join elems nl) = flat_map text_lines elems.
Proof.
  induction elems as [| x l IH]; [contradiction |]. intros _.
  destruct l as [| y l'].
  - cbn. rewrite app_nil_r. reflexivity.
  - change (Fmt.Join (x :: y :: l') nl) with (x +++ nl +++ Fmt.Join (y :: l') nl).
    rewrite text_lines_append_nl, IH by discriminate. reflexivity.
Qed.

Lemma single_line_append (s t : string) :
  single_line (s +++ t) = single_line s && single_line t.
Proof.
  induction s as [| c s IH]; [reflexivity |].
  cbn [String.append single_line]. rewrite IH. apply andb_assoc.
Qed.

(** ** What [fmt] prints holds no newline *)

Lemma single_line_uint (u : Decimal.uint) :
  single_line (NilEmpty.string_of_uint u) = true.
Proof. induction u; cbn [NilEmpty.string_of_uint single_line]; auto. Qed.

Lemma single_line_d (z : Z) : single_line (Fmt.d z) = true.
Proof.
  unfold Fmt.d, NilZero.string_of_int, NilZero.string_of_uint.
  destruct (Z.to_int z) as [u | u]; destruct u;
    cbn [single_line]; rewrite ?single_line_uint; reflexivity.
Qed.

Lemma upper_hex_digit_not_nl (n : N) :
  Ascii.eqb (Fmt.upper_hex_digit n) (ascii_of_nat 10) = false.
Proof.
  unfold Fmt.upper_hex_digit.
  repeat match goal with
    | |- context [match ?x with _ => _ end] => destruct x
    end; reflexivity.
Qed.

Lemma single_line_upper_hex (fuel : nat) (n : N) (acc : string) :
  single_line acc = true -> single_line (Fmt.upper_hex fuel n acc) = true.
Proof.
  revert n acc. induction fuel as [| fuel IH]; intros n acc Hacc; [exact Hacc |].
  cbn [Fmt.upper_hex].
  assert (H : single_line (String (Fmt.upper_hex_digit (N.modulo n 16)) acc) = true).
  { cbn [single_line]. rewrite upper_hex_digit_not_nl, Hacc. reflexivity. }
  destruct (n <? 16)%N; [exact H | apply IH; exact H].
Qed.

Lemma single_line_zeros (n : nat) : single_line (Fmt.zeros n) = true.
Proof. induction n as [| n IH]; [reflexivity | exact IH]. Qed.

Lemma single_line_X04 (z : Z) : single_line (Fmt.X04 z) = true.
Proof.
  unfold Fmt.X04. cbv zeta.
  rewrite single_line_append, single_line_zeros, single_line_upper_hex;
    reflexivity.
Qed.

(** ** The labelled lines of the text are those of the slice *)

Lemma filter_none {A : Type} (f : A -> bool) (l : list A) :
  (forall x : A, In x l -> f x = false) -> filter f l = [].
Proof.
  induction l as [| x l IH]; [reflexivity |]. intros H. cbn [filter].
  rewrite (H x) by (left; reflexivity).
  apply IH. intros y Hy. apply H. right. exact Hy.
Qed.

Lemma labelled_flat_map (label : string) (elems : list string) :
  (forall e : string,
      In e elems ->
      filter (starts_with label) (text_lines e) = filter (starts_with label) [e]) ->
  filter (starts_with label) (flat_map text_lines elems) =
  filter (starts_with label) elems.
Proof.
  induction elems as [| x l IH]; [reflexivity |]. intros H.
  cbn [flat_map]. rewrite filter_app, (H x) by (left; reflexivity).
  rewrite IH by (intros e He; apply H; right; exact He).
  cbn [filter]. destruct (starts_with label x); reflexivity.
Qed.

Lemma faithful_single (label e : string) :
  single_line e = true ->
  filter (starts_with label) (text_lines e) = filter (starts_with label) [e].
Proof. intros H. rewrite (text_lines_single e H). reflexivity. Qed.

(** Whether a text is indented is decided by its first line. *)
Lemma starts_with_tab_first_line (s : string) :
  starts_with tab s = starts_with tab (hd EmptyString (text_lines s)).
Proof.
  destruct s as [| c s]; [reflexivity |].
  cbn [text_lines].
  destruct (Ascii.eqb c (ascii_of_nat 10)) eqn:Hc.
  - apply Ascii.eqb_eq in Hc. subst c. reflexivity.
  - pose proof (text_lines_nonempty s) as Hne.
    destruct (text_lines s) as [| l ls]; [contradiction |].
    unfold tab. cbn [hd starts_with]. reflexivity.
Qed.

Lemma header_not_indented_of_lines (Header_String : Header -> string) :
  header_lines_not_indented Header_String ->
  header_not_indented Header_String.
Proof.
  intros H h. rewrite starts_with_tab_first_line. apply (H h).
  pose proof (text_lines_nonempty (Header_String h)) as Hne.
  destruct (text_lines (Header_String h)); [contradiction | left; reflexivity].
Qed.

Lemma faithful_header
  (Header_String : Header -> string) (c : ascii) (rest : string) (h : Header) :
  header_lines_not_indented Header_String ->
  filter (starts_with (String (ascii_of_nat 9) (String c rest)))
    (text_lines (Header_String h)) =
  filter (starts_with (String (ascii_of_nat 9) (String c rest)))
    [Header_String h].
Proof.
  intros H.
  rewrite filter_none.
  - cbn [filter].
    rewrite label_not_prefix_unindented; [reflexivity |].
    apply (header_not_indented_of_lines Header_String H).
  - intros l Hl. apply label_not_prefix_unindented. apply (H h l Hl).
Qed.

(** The lines of a flag report are empty or doubly indented. *)
Lemma flag_text_lines (table : list (Z * string)) (v : Z) (l : string) :
  forallb (fun e => single_line (snd e)) table = true ->
  In l (text_lines (Fmt.Join (map indent (render table v)) nl)) ->
  l = "" \/ exists d : string, l = tab +++ tab +++ d.
Proof.
  intros Htable Hin.
  destruct (render table v) as [| d ds] eqn:Hr.
  - cbn in Hin. destruct Hin as [<- | []]. left. reflexivity.
  - rewrite text_lines_Join in Hin by discriminate.
    apply in_flat_map in Hin. destruct Hin as (x & Hx & Hl).
    apply in_map_iff in Hx. destruct Hx as (d' & <- & Hd').
    assert (Hs : single_line d' = true).
    { rewrite <- Hr in Hd'. unfold render in Hd'.
      apply in_map_iff in Hd'. destruct Hd' as (e & <- & He).
      apply filter_In in He. destruct He as [He _].
      rewrite forallb_forall in Htable. apply (Htable e He). }
    rewrite text_lines_single in Hl.
    + destruct Hl as [<- | []]. right. exists d'. reflexivity.
    + unfold indent. rewrite !single_line_append, Hs. reflexivity.
Qed.

Lemma faithful_flag_text
  (table : list (Z * string)) (v : Z) (c : ascii) (rest : string) :
  c <> ascii_of_nat 9 ->
  forallb (fun e => single_line (snd e)) table = true ->
  filter (starts_with (String (ascii_of_nat 9) (String c rest)))
    (text_lines (Fmt.Join (map indent (render table v)) nl)) = [].
Proof.
  intros Hc Htable. apply filter_none. intros l Hl.
  apply label_not_prefix_indented; [exact Hc |].
  apply (flag_text_lines table v l Htable Hl).
Qed.

Lemma label_not_Characteristics (c : ascii) (rest s : string) :
  c <> "C"%char ->
  starts_with (String (ascii_of_nat 9) (String c rest))
    (tab +++ "Characteristics:" +++ s) = false.
Proof.
  intros Hc. apply Ascii.eqb_neq in Hc.
  change (tab +++ "Characteristics:" +++ s)
    with (String (ascii_of_nat 9) (String "C" ("haracteristics:" +++ s))).
  cbn [starts_with]. rewrite Hc. apply andb_false_r.
Qed.

Lemma flag_tables_single_line :
  forallb (fun e => single_line (snd e)) BIOSCharacteristics_table = true
  /\ forallb (fun e => single_line (snd e)) BIOSCharacteristicsExt1_table = true
  /\ forallb (fun e => single_line (snd e)) BIOSCharacteristicsExt2_table = true.
Proof. repeat split; vm_compute; reflexivity. Qed.

(** Decides that an element built from literals, numbers and single-line
    fields is one line of the text. *)
Ltac single_line_elem Hv Hw Hd :=
  apply faithful_single;
  rewrite ?single_line_append, ?single_line_d, ?single_line_X04, ?Hv, ?Hw, ?Hd;
  reflexivity.

(** Under the two conditions on the strings that enter the summary, the
    lines of the text that carry a field label are the elements of the
    slice that carry it. *)
Lemma summary_lines_labelled
  (Header_String : Header -> string) (a : UintWidth) (bi : BIOSInformation)
  (c : ascii) (rest : string) :
  c <> ascii_of_nat 9 ->
  c <> "C"%char ->
  header_lines_not_indented Header_String ->
  single_line_fields bi ->
  lines_labelled (String (ascii_of_nat 9) (String c rest))
    (summary_lines Header_String a bi) =
  lines_labelled (String (ascii_of_nat 9) (String c rest))
    (BIOSInformation_lines Header_String a bi).
Proof.
  intros Htab HC Hheader (Hv & Hw & Hd).
  destruct flag_tables_single_line as (T0 & T1 & T2).
  unfold summary_lines, BIOSInformation_String, lines_labelled.
  rewrite text_lines_Join
    by (rewrite BIOSInformation_lines_segments; discriminate).
  apply labelled_flat_map. intros e He.
  rewrite BIOSInformation_lines_segments in He. cbv zeta in He.
  apply in_app_or in He. destruct He as [He | He].
  { destruct He as [<- | [<- | [<- | [<- | []]]]].
    - apply faithful_header. exact Hheader.
    - single_line_elem Hv Hw Hd.
    - single_line_elem Hv Hw Hd.
    - single_line_elem Hv Hw Hd. }
  apply in_app_or in He. destruct He as [He | He].
  { destruct (StartingAddressSegment bi =? 0); [contradiction |].
    destruct He as [<- | [<- | []]]; single_line_elem Hv Hw Hd. }
  apply in_app_or in He. destruct He as [He | He].
  { destruct He as [<- | []].
    destruct (GetROMSizeBytes a bi <? 1024);
      [| destruct (GetROMSizeBytes a bi <? 1024 * 1024);
         [| destruct (GetROMSizeBytes a bi <? 1024 * 1024 * 1024)]];
      single_line_elem Hv Hw Hd. }
  apply in_app_or in He. destruct He as [He | He].
  { destruct He as [<- | [<- | [<- | []]]].
    - cbn [filter]. rewrite (label_not_Characteristics c rest _ HC).
      change (tab +++ "Characteristics:" +++ nl +++
              BIOSCharacteristics_String (Characteristics bi))
        with ((tab +++ "Characteristics:") +++ nl +++
              BIOSCharacteristics_String (Characteristics bi)).
      rewrite text_lines_append_nl, filter_app.
      unfold BIOSCharacteristics_String.
      rewrite BIOSCharacteristics_lines_render.
      rewrite (faithful_flag_text _ _ c rest Htab T0), app_nil_r.
      rewrite text_lines_single by reflexivity.
      cbn [filter].
      pose proof (label_not_Characteristics c rest "" HC) as H0.
      change (tab +++ "Characteristics:" +++ "")
        with (tab +++ "Characteristics:") in H0.
      rewrite H0. reflexivity.
    - cbn [filter].
      rewrite (label_not_prefix_indented c rest _ Htab
                 (BIOSCharacteristicsExt1_String_shape _)).
      unfold BIOSCharacteristicsExt1_String.
      rewrite BIOSCharacteristicsExt1_lines_render.
      apply (faithful_flag_text _ _ c rest Htab T1).
    - cbn [filter].
      rewrite (label_not_prefix_indented c rest _ Htab
                 (BIOSCharacteristicsExt2_String_shape _)).
      unfold BIOSCharacteristicsExt2_String.
      rewrite BIOSCharacteristicsExt2_lines_render.
      apply (faithful_flag_text _ _ c rest Htab T2). }
  apply in_app_or in He. destruct He as [He | He].
  { destruct ((bi_Len bi >=? 0x16) && negb (SystemBIOSMajorRelease bi =? 0xff));
      [| contradiction].
    destruct He as [<- | []]. single_line_elem Hv Hw Hd. }
  destruct ((bi_Len bi >=? 0x18) &&
            negb (EmbeddedControllerFirmwareMajorRelease bi =? 0xff));
    [| contradiction].
  destruct He as [<- | []]. single_line_elem Hv Hw Hd.
Qed.

(** A one-line element of the slice is a line of the text. *)
Lemma summary_lines_In
  (Header_String : Header -> string) (a : UintWidth) (bi : BIOSInformation)
  (e : string) :
  In e (BIOSInformation_lines Header_String a bi) ->
  single_line e = true ->
  In e (summary_lines Header_String a bi).
Proof.
  intros He Hs. unfold summary_lines, BIOSInformation_String.
  rewrite text_lines_Join by (intros Hnil; rewrite Hnil in He; contradiction).
  apply in_flat_map. exists e. split; [exact He |].
  rewrite (text_lines_single e Hs). left. reflexivity.
Qed.

Lemma labelled_In (label line : string) (lines : list string) :
  lines_labelled label lines = [line] -> In line lines.
Proof.
  intros H. assert (Hin : In line (lines_labelled label lines))
    by (rewrite H; left; reflexivity).
  unfold lines_labelled in Hin. apply filter_In in Hin. apply Hin.
Qed.

(** ** The field labels *)

Lemma summary_BIOSRevision_labelled
  (Header_String : Header -> string) (a : UintWidth) (bi : BIOSInformation) :
  header_lines_not_indented Header_String ->
  single_line_fields bi ->
  lines_labelled label_BIOSRevision (summary_lines Header_String a bi) =
  lines_labelled label_BIOSRevision (BIOSInformation_lines Header_String a bi).
Proof.
  intros Hh Hf.
  apply (summary_lines_labelled Header_String a bi "B" "IOS Revision: ");
    [discriminate | discriminate | exact Hh | exact Hf].
Qed.

Lemma summary_FirmwareRevision_labelled
  (Header_String : Header -> string) (a : UintWidth) (bi : BIOSInformation) :
  header_lines_not_indented Header_String ->
  single_line_fields bi ->
  lines_labelled label_FirmwareRevision (summary_lines Header_String a bi) =
  lines_labelled label_FirmwareRevision (BIOSInformation_lines Header_String a bi).
Proof.
  intros Hh Hf.
  apply (summary_lines_labelled Header_String a bi "F" "irmware Revision: ");
    [discriminate | discriminate | exact Hh | exact Hf].
Qed.

Lemma summary_Address_labelled
  (Header_String : Header -> string) (a : UintWidth) (bi : BIOSInformation) :
  header_lines_not_indented Header_String ->
  single_line_fields bi ->
  lines_labelled label_Address (summary_lines Header_String a bi) =
  lines_labelled label_Address (BIOSInformation_lines Header_String a bi).
Proof.
  intros Hh Hf.
  apply (summary_lines_labelled Header_String a bi "A" "ddress: ");
    [discriminate | discriminate | exact Hh | exact Hf].
Qed.

Lemma summary_RuntimeSize_labelled
  (Header_String : Header -> string) (a : UintWidth) (bi : BIOSInformation) :
  header_lines_not_indented Header_String ->
  single_line_fields bi ->
  lines_labelled label_RuntimeSize (summary_lines Header_String a bi) =
  lines_labelled label_RuntimeSize (BIOSInformation_lines Header_String a bi).
Proof.
  intros Hh Hf.
  apply (summary_lines_labelled Header_String a bi "R" "untime Size: ");
    [discriminate | discriminate | exact Hh | exact Hf].
Qed.

Lemma summary_ROMSize_labelled
  (Header_String : Header -> string) (a : UintWidth) (bi : BIOSInformation) :
  header_lines_not_indented Header_String ->
  single_line_fields bi ->
  lines_labelled label_ROMSize (summary_lines Header_String a bi) =
  lines_labelled label_ROMSize (BIOSInformation_lines Header_String a bi).
Proof.
  intros Hh Hf.
  apply (summary_lines_labelled Header_String a bi "R" "OM Size: ");
    [discriminate | discriminate | exact Hh | exact Hf].
Qed.

Lemma sample_header_lines_not_indented :
  header_lines_not_indented sample_Header_String.
Proof.
  intros h l Hl. unfold sample_Header_String in Hl.
  rewrite text_lines_single in Hl
    by (rewrite single_line_append, single_line_X04; reflexivity).
  destruct Hl as [<- | []]. reflexivity.
Defined.

Lemma sample_single_line_fields (len : nat) (rom ext segment major minor : Z) :
  single_line_fields (sample_BIOSInformation len rom ext segment major minor).
Proof. repeat split. Defined.

(** ** The conditional lines in the text *)

Lemma BIOSRevision_in_lines
  (Header_String : Header -> string) (a : UintWidth) (bi : BIOSInformation) :
  0x16 <= bi_Len bi ->
  SystemBIOSMajorRelease bi <> 0xff ->
  In (tab +++ "BIOS Revision: " +++ Fmt.d (SystemBIOSMajorRelease bi) +++ "." +++
        Fmt.d (SystemBIOSMinorRelease bi))
     (BIOSInformation_lines Header_String a bi).
Proof.
  intros Hlen Hmaj. rewrite BIOSInformation_lines_segments.
  do 4 (apply in_or_app; right). apply in_or_app; left.
  destruct (Z.geb_spec (bi_Len bi) 0x16) as [_ | Hlt]; [| lia].
  destruct (Z.eqb_spec (SystemBIOSMajorRelease bi) 0xff) as [Heq | _];
    [contradiction |].
  left. reflexivity.
Qed.

Lemma Address_in_lines
  (Header_String : Header -> string) (a : UintWidth) (bi : BIOSInformation) :
  StartingAddressSegment bi <> 0 ->
  is_uint16 (StartingAddressSegment bi) ->
  In (tab +++ "Address: 0x" +++ Fmt.X04 (StartingAddressSegment bi) +++ "0")
     (BIOSInformation_lines Header_String a bi)
  /\ In (tab +++ "Runtime Size: " +++
           Fmt.d (Z.shiftl (0x10000 - StartingAddressSegment bi) 4 / 1024) +++
           " kB")
        (BIOSInformation_lines Header_String a bi).
Proof.
  intros Hnz Hseg. rewrite BIOSInformation_lines_segments.
  rewrite (RuntimeSize_value a _ Hseg).
  destruct (Z.eqb_spec (StartingAddressSegment bi) 0) as [Hz | _];
    [contradiction |].
  split; apply in_or_app; right; apply in_or_app; left.
  - left. reflexivity.
  - right. left. reflexivity.
Qed.

Lemma ROMSize_in_lines
  (Header_String : Header -> string) (a : UintWidth) (bi : BIOSInformation) :
  In (ROMSize_line (GetROMSizeBytes a bi))
     (BIOSInformation_lines Header_String a bi).
Proof.
  rewrite BIOSInformation_lines_segments. cbv zeta.
  rewrite (ROMSize_text _ (GetROMSizeBytes_nonneg a bi)).
  do 2 (apply in_or_app; right). apply in_or_app; left. left. reflexivity.
Qed.

Lemma single_line_ROMSize_line (bs : Z) : single_line (ROMSize_line bs) = true.
Proof.
  unfold ROMSize_line, scaled_ROMSize.
  destruct (bs <? 1024); [| destruct (bs <? 1024 ^ 2);
                            [| destruct (bs <? 1024 ^ 3)]];
    cbn [fst snd]; rewrite !single_line_append, single_line_d; reflexivity.
Qed.

(** C8, as the code has it: a record of at least 0x16 bytes whose major
    release is not 0xFF has its BIOS revision line in the summary text.
    When the vendor, version and release date strings hold no newline and
    no line of the header is indented, the text has a BIOS revision line
    only then: a record of 0x15 bytes has none, whatever its release fields
    hold, and a major release of 0xFF suppresses it at any length. *)
Theorem summary_BIOSRevision_line
  (Header_String : Header -> string) (a : UintWidth) (bi : BIOSInformation) :
  let major := SystemBIOSMajorRelease bi in
  let minor := SystemBIOSMinorRelease bi in
  let text := summary_lines Header_String a bi in
  let reported := lines_labelled label_BIOSRevision text in
  (0x16 <= bi_Len bi -> major <> 0xff ->
   In (tab +++ "BIOS Revision: " +++ Fmt.d major +++ "." +++ Fmt.d minor) text)
  /\ (header_lines_not_indented Header_String ->
      single_line_fields bi ->
      (reported <> [] <-> 0x16 <= bi_Len bi /\ major <> 0xff)
      /\ (0x16 <= bi_Len bi -> major <> 0xff ->
          reported =
          [ tab +++ "BIOS Revision: " +++ Fmt.d major +++ "." +++ Fmt.d minor ])
      /\ (bi_Len bi = 0x15 -> reported = [])
      /\ (0x16 <= bi_Len bi -> major = 0xff -> reported = [])).
Proof.
  intros major minor text reported. split.
  - intros Hlen Hmaj. apply summary_lines_In.
    + apply BIOSRevision_in_lines; assumption.
    + rewrite !single_line_append, !single_line_d. reflexivity.
  - intros Hh Hf. subst reported text.
    rewrite (summary_BIOSRevision_labelled Header_String a bi Hh Hf).
    exact (BIOSRevision_line_gating Header_String a bi
             (header_not_indented_of_lines Header_String Hh)).
Qed.

(** C9, as the code has it: a record whose starting address segment is not
    zero has the starting address line and the runtime size line in the
    summary text, the latter showing ((0x10000 - segment) << 4) / 1024 kB.
    When the vendor, version and release date strings hold no newline and
    no line of the header is indented, the text has an address line, and a
    runtime size line, only then. *)
Theorem summary_Address_lines
  (Header_String : Header -> string) (a : UintWidth) (bi : BIOSInformation) :
  is_uint16 (StartingAddressSegment bi) ->
  let segment := StartingAddressSegment bi in
  let text := summary_lines Header_String a bi in
  (segment <> 0 ->
   In (tab +++ "Address: 0x" +++ Fmt.X04 segment +++ "0") text
   /\ In (tab +++ "Runtime Size: " +++
            Fmt.d (Z.shiftl (0x10000 - segment) 4 / 1024) +++ " kB") text)
  /\ (header_lines_not_indented Header_String ->
      single_line_fields bi ->
      (lines_labelled label_Address text <> [] <-> segment <> 0)
      /\ (lines_labelled label_RuntimeSize text <> [] <-> segment <> 0)
      /\ (segment <> 0 ->
          lines_labelled label_Address text =
          [ tab +++ "Address: 0x" +++ Fmt.X04 segment +++ "0" ]
          /\ lines_labelled label_RuntimeSize text =
             [ tab +++ "Runtime Size: " +++
                 Fmt.d (Z.shiftl (0x10000 - segment) 4 / 1024) +++ " kB" ])).
Proof.
  intros Hseg segment text. split.
  - intros Hnz.
    destruct (Address_in_lines Header_String a bi Hnz Hseg) as [Ha Hr].
    split; apply summary_lines_In; try assumption.
    + rewrite !single_line_append, single_line_X04. reflexivity.
    + rewrite !single_line_append, single_line_d. reflexivity.
  - intros Hh Hf. subst text.
    rewrite (summary_Address_labelled Header_String a bi Hh Hf).
    rewrite (summary_RuntimeSize_labelled Header_String a bi Hh Hf).
    exact (Address_lines_gating Header_String a bi
             (header_not_indented_of_lines Header_String Hh) Hseg).
Qed.

(** C10, as the code has it: the summary text of every record has the line
    that shows the byte count of [GetROMSizeBytes] in bytes below 1024, in
    kB below 1024^2, in MB below 1024^3 and in GB from there on, each by
    integer division; for a count of at least one byte that is the largest
    unit in which the value shown is at least 1.  When the vendor, version
    and release date strings hold no newline and no line of the header is
    indented, that is the only ROM size line of the text. *)
Theorem summary_ROMSize_line
  (Header_String : Header -> string) (a : UintWidth) (bi : BIOSInformation) :
  let bs := GetROMSizeBytes a bi in
  let text := summary_lines Header_String a bi in
  In (ROMSize_line bs) text
  /\ (header_lines_not_indented Header_String ->
      single_line_fields bi ->
      lines_labelled label_ROMSize text = [ ROMSize_line bs ])
  /\ 0 <= bs
  /\ (bs < 1024 ->
      ROMSize_line bs = tab +++ "ROM Size: " +++ Fmt.d bs)
  /\ (1024 <= bs < 1024 ^ 2 ->
      ROMSize_line bs = tab +++ "ROM Size: " +++ Fmt.d (bs / 1024) +++ " kB")
  /\ (1024 ^ 2 <= bs < 1024 ^ 3 ->
      ROMSize_line bs = tab +++ "ROM Size: " +++ Fmt.d (bs / 1024 ^ 2) +++ " MB")
  /\ (1024 ^ 3 <= bs ->
      ROMSize_line bs = tab +++ "ROM Size: " +++ Fmt.d (bs / 1024 ^ 3) +++ " GB")
  /\ (1 <= bs ->
      1 <= fst (scaled_ROMSize bs)
      /\ (bs < 1024 ^ 3 -> fst (scaled_ROMSize bs) < 1024)).
Proof.
  intros bs text.
  split.
  { apply summary_lines_In;
      [apply ROMSize_in_lines | apply single_line_ROMSize_line]. }
  split.
  { intros Hh Hf. subst text.
    rewrite (summary_ROMSize_labelled Header_String a bi Hh Hf).
    apply ROMSize_lines_labelled.
    apply (header_not_indented_of_lines Header_String Hh). }
  split; [apply GetROMSizeBytes_nonneg |].
  destruct (ROMSize_line_cases bs) as (Hb & Hk & Hm & Hg).
  change (1024 ^ 2) with 1048576. change (1024 ^ 3) with 1073741824.
  split; [exact Hb |]. split; [exact Hk |]. split; [exact Hm |].
  split; [exact Hg |].
  clear. intros H1. unfold scaled_ROMSize.
  change (1024 ^ 2) with 1048576. change (1024 ^ 3) with 1073741824.
  destruct (Z.ltb_spec bs 1024) as [H2 | H2];
    [| destruct (Z.ltb_spec bs 1048576) as [H3 | H3];
       [| destruct (Z.ltb_spec bs 1073741824) as [H4 | H4]]];
    cbn [fst].
  - lia.
  - split; [apply Z.div_le_lower_bound | intros; apply Z.div_lt_upper_bound]; lia.
  - split; [apply Z.div_le_lower_bound | intros; apply Z.div_lt_upper_bound]; lia.
  - split; [apply Z.div_le_lower_bound | intros]; lia.
Qed.

(** X1: when the vendor, version and release date strings hold no newline
    and no line of the header is indented, the summary text has a firmware
    revision line exactly when the record is at least 0x18 bytes long and
    the embedded controller major release is not 0xFF; the line then reads
    major.minor in decimal. *)
Theorem summary_FirmwareRevision_line
  (Header_String : Header -> string) (a : UintWidth) (bi : BIOSInformation) :
  header_lines_not_indented Header_String ->
  single_line_fields bi ->
  let major := EmbeddedControllerFirmwareMajorRelease bi in
  let minor := EmbeddedControllerFirmwareMinorRelease bi in
  let reported :=
    lines_labelled label_FirmwareRevision (summary_lines Header_String a bi) in
  (reported <> [] <-> 0x18 <= bi_Len bi /\ major <> 0xff)
  /\ (0x18 <= bi_Len bi -> major <> 0xff ->
      reported =
      [ tab +++ "Firmware Revision: " +++ Fmt.d major +++ "." +++ Fmt.d minor ])
  /\ (bi_Len bi < 0x18 -> reported = [])
  /\ (major = 0xff -> reported = []).
Proof.
  intros Hh Hf major minor reported. subst reported.
  rewrite (summary_FirmwareRevision_labelled Header_String a bi Hh Hf).
  exact (FirmwareRevision_line_gating Header_String a bi
           (header_not_indented_of_lines Header_String Hh)).
Qed.

(** X7: when the vendor, version and release date strings hold no newline
    and no line of the header is indented, the one ROM size line in the
    summary text of a record without the sentinel is never in bytes or GB:
    it shows 64 * (ROMSize + 1) kB when ROMSize is below 15 and
    (ROMSize + 1) / 16 MB, rounded down, from 15 on. *)
Theorem summary_ROMSize_legacy
  (Header_String : Header -> string) (a : UintWidth) (bi : BIOSInformation) :
  header_lines_not_indented Header_String ->
  single_line_fields bi ->
  is_uint8 (ROMSize bi) ->
  ROMSize bi <> 0xff ->
  lines_labelled label_ROMSize (summary_lines Header_String a bi) =
  [ if ROMSize bi <? 15
    then tab +++ "ROM Size: " +++ Fmt.d (64 * (ROMSize bi + 1)) +++ " kB"
    else tab +++ "ROM Size: " +++ Fmt.d ((ROMSize bi + 1) / 16) +++ " MB" ].
Proof.
  intros Hh Hf Hrange Hne.
  rewrite (summary_ROMSize_labelled Header_String a bi Hh Hf).
  exact (ROMSize_line_legacy Header_String a bi
           (header_not_indented_of_lines Header_String Hh) Hrange Hne).
Qed.

(** X8: where [uint] has 64 bits, and when the vendor, version and release
    date strings hold no newline and no line of the header is indented, the
    one ROM size line in the summary text of a record that carries the
    extended ROM size shows its magnitude in the unit it was encoded in
    whenever that fits: GB as GB, MB as MB below 1024 and as GB (divided by
    1024) from there on, a reserved unit as bytes below 1024 and as kB from
    there on, and a zero magnitude as 0 bytes. *)
Theorem summary_ROMSize_extended
  (Header_String : Header -> string) (bi : BIOSInformation) :
  header_lines_not_indented Header_String ->
  single_line_fields bi ->
  is_uint16 (ExtendedROMSize bi) ->
  ROMSize bi = 0xff ->
  0x1a <= bi_Len bi ->
  let unit := Z.shiftr (ExtendedROMSize bi) 14 in
  let magnitude := Z.land (ExtendedROMSize bi) 0x3fff in
  let shown :=
    lines_labelled label_ROMSize (summary_lines Header_String W64 bi) in
  (unit = 1 -> 1 <= magnitude ->
   shown = [ tab +++ "ROM Size: " +++ Fmt.d magnitude +++ " GB" ])
  /\ (unit = 0 -> 1 <= magnitude < 1024 ->
      shown = [ tab +++ "ROM Size: " +++ Fmt.d magnitude +++ " MB" ])
  /\ (unit = 0 -> 1024 <= magnitude ->
      shown = [ tab +++ "ROM Size: " +++ Fmt.d (magnitude / 1024) +++ " GB" ])
  /\ (unit = 2 \/ unit = 3 -> magnitude < 1024 ->
      shown = [ tab +++ "ROM Size: " +++ Fmt.d magnitude ])
  /\ (unit = 2 \/ unit = 3 -> 1024 <= magnitude ->
      shown = [ tab +++ "ROM Size: " +++ Fmt.d (magnitude / 1024) +++ " kB" ])
  /\ (magnitude = 0 -> shown = [ tab +++ "ROM Size: 0" ]).
Proof.
  intros Hh Hf Hext Hrom Hlen unit magnitude shown. subst shown.
  rewrite (summary_ROMSize_labelled Header_String W64 bi Hh Hf).
  exact (ROMSize_line_extended Header_String bi
           (header_not_indented_of_lines Header_String Hh) Hext Hrom Hlen).
Qed.

(** X11: when the vendor, version and release date strings hold no newline
    and no line of the header is indented, and the starting address segment
    is not zero, the one runtime size line of the summary text shows the
    distance in whole kB from the starting address, 16 * segment, to the
    1 MB boundary, rounded down: between 0 and 1023, and exact when the
    segment is a multiple of 64. *)
Theorem summary_RuntimeSize_to_1MB
  (Header_String : Header -> string) (a : UintWidth) (bi : BIOSInformation) :
  header_lines_not_indented Header_String ->
  single_line_fields bi ->
  is_uint16 (StartingAddressSegment bi) ->
  StartingAddressSegment bi <> 0 ->
  exists k : Z,
    lines_labelled label_RuntimeSize (summary_lines Header_String a bi) =
    [ tab +++ "Runtime Size: " +++ Fmt.d k +++ " kB" ]
    /\ 0 <= k <= 1023
    /\ 0 <= 0x100000 - (16 * StartingAddressSegment bi + 1024 * k) < 1024
    /\ (StartingAddressSegment bi mod 64 = 0 ->
        16 * StartingAddressSegment bi + 1024 * k = 0x100000).
Proof.
  intros Hh Hf Hseg Hnz.
  rewrite (summary_RuntimeSize_labelled Header_String a bi Hh Hf).
  exact (RuntimeSize_to_1MB Header_String a bi
           (header_not_indented_of_lines Header_String Hh) Hseg Hnz).
Qed.

(** ** A vendor string that holds a newline *)

(** A record of 0x15 bytes whose vendor string goes on, after a newline,
    with the text of a BIOS revision line: the summary text has that line. *)
Lemma summary_BIOSRevision_injected :
  let bi :=
    sample_vendor ("ACME" +++ nl +++ tab +++ "BIOS Revision: 9.9") 0x15 0x7f 0 in
  bi_Len bi = 0x15
  /\ lines_labelled label_BIOSRevision
       (summary_lines sample_Header_String W64 bi) =
     [ tab +++ "BIOS Revision: 9.9" ]
  /\ ~ (lines_labelled label_BIOSRevision
          (summary_lines sample_Header_String W64 bi) <> [] <->
        0x16 <= bi_Len bi /\ SystemBIOSMajorRelease bi <> 0xff).
Proof.
  intros bi. split; [reflexivity |]. split; [vm_compute; reflexivity |].
  intros [H _].
  assert (Hlen : 0x16 <= bi_Len bi /\ SystemBIOSMajorRelease bi <> 0xff).
  { apply H. vm_compute. discriminate. }
  destruct Hlen as [Hlen _]. vm_compute in Hlen. apply Hlen. reflexivity.
Qed.

(** A record whose starting address segment is zero and whose vendor string
    goes on with the text of an address line and of a runtime size line:
    the summary text has both. *)
Lemma summary_Address_injected :
  let bi :=
    sample_vendor
      ("ACME" +++ nl +++ tab +++ "Address: 0xF0000" +++ nl +++
       tab +++ "Runtime Size: 64 kB") 0x12 0x7f 0 in
  StartingAddressSegment bi = 0
  /\ lines_labelled label_Address (summary_lines sample_Header_String W64 bi) =
     [ tab +++ "Address: 0xF0000" ]
  /\ lines_labelled label_RuntimeSize (summary_lines sample_Header_String W64 bi) =
     [ tab +++ "Runtime Size: 64 kB" ]
  /\ ~ (lines_labelled label_Address
          (summary_lines sample_Header_String W64 bi) <> [] <->
        StartingAddressSegment bi <> 0).
Proof.
  intros bi. split; [reflexivity |].
  split; [vm_compute; reflexivity |]. split; [vm_compute; reflexivity |].
  intros [H _]. apply H; [vm_compute; discriminate | reflexivity].
Qed.

(** A record of 65536 bytes of ROM whose vendor string goes on with the text
    of a ROM size line: the summary text has a ROM size line that does not
    show the byte count. *)
Lemma summary_ROMSize_injected :
  let bi := sample_vendor ("ACME" +++ nl +++ tab +++ "ROM Size: 1 GB") 0x12 0 0 in
  GetROMSizeBytes W64 bi = 65536
  /\ lines_labelled label_ROMSize (summary_lines sample_Header_String W64 bi) =
     [ tab +++ "ROM Size: 1 GB"; tab +++ "ROM Size: 64 kB" ]
  /\ ROMSize_line (GetROMSizeBytes W64 bi) = tab +++ "ROM Size: 64 kB".
Proof.
  intros bi. split; [reflexivity |].
  split; vm_compute; reflexivity.
Qed.

(** C1: where [uint] has 32 bits, the extended ROM size 0x4010, sixteen
    gigabytes, in a record of 0x1A bytes with the sentinel in ROMSize comes
    out as 0 bytes: the product 16 * 1,073,741,824 is reduced modulo 2^32.
    Where [uint] has 64 bits the same record gives 16 * 1,073,741,824. *)
Theorem GetROMSizeBytes_extended_overflow :
  let bi := sample_BIOSInformation 0x1a 0xff 0x4010 0xe800 4 6 in
  ROMSize bi = 0xff
  /\ 0x1a <= bi_Len bi
  /\ ExtendedROMSize bi = 0x4010
  /\ Z.shiftr (ExtendedROMSize bi) 14 = 1
  /\ Z.land (ExtendedROMSize bi) 0x3fff = 16
  /\ GetROMSizeBytes W32 bi = 0
  /\ GetROMSizeBytes W64 bi = 16 * 1073741824.
Proof.
  intros bi. split; [reflexivity |]. split; [vm_compute; discriminate |].
  repeat split.
Qed.

(** ** The theorems of this part at sample records *)

Lemma summary_BIOSRevision_line_witness :
  let bi := sample_BIOSInformation 0x16 0xff 0 0xe800 4 6 in
  header_lines_not_indented sample_Header_String
  /\ single_line_fields bi
  /\ lines_labelled label_BIOSRevision
       (summary_lines sample_Header_String W64 bi) =
     [ tab +++ "BIOS Revision: 4.6" ].
Proof.
  intros bi.
  split; [exact sample_header_lines_not_indented |].
  split; [apply sample_single_line_fields |].
  destruct (summary_BIOSRevision_line sample_Header_String W64 bi) as (_ & H).
  destruct (H sample_header_lines_not_indented
              (sample_single_line_fields _ _ _ _ _ _)) as (_ & H2 & _).
  apply H2.
  - vm_compute. discriminate.
  - cbn. discriminate.
Defined.

Lemma summary_Address_lines_witness :
  let bi := sample_BIOSInformation 0x16 0xff 0 0xe800 4 6 in
  is_uint16 (StartingAddressSegment bi)
  /\ header_lines_not_indented sample_Header_String
  /\ single_line_fields bi
  /\ lines_labelled label_RuntimeSize
       (summary_lines sample_Header_String W64 bi) =
     [ tab +++ "Runtime Size: 96 kB" ].
Proof.
  intros bi.
  assert (Hseg : is_uint16 (StartingAddressSegment bi))
    by (unfold is_uint16; cbn; lia).
  split; [exact Hseg |].
  split; [exact sample_header_lines_not_indented |].
  split; [apply sample_single_line_fields |].
  destruct (summary_Address_lines sample_Header_String W64 bi Hseg) as (_ & H).
  destruct (H sample_header_lines_not_indented
              (sample_single_line_fields _ _ _ _ _ _)) as (_ & _ & H2).
  apply H2. cbn. discriminate.
Defined.

Lemma summary_ROMSize_line_witness :
  let bi := sample_BIOSInformation 0x1a 0xff 0x4010 0xe800 4 6 in
  header_lines_not_indented sample_Header_String
  /\ single_line_fields bi
  /\ lines_labelled label_ROMSize
       (summary_lines sample_Header_String W64 bi) =
     [ tab +++ "ROM Size: 16 GB" ].
Proof.
  intros bi.
  split; [exact sample_header_lines_not_indented |].
  split; [apply sample_single_line_fields |].
  destruct (summary_ROMSize_line sample_Header_String W64 bi) as (_ & H & _).
  exact (H sample_header_lines_not_indented
           (sample_single_line_fields _ _ _ _ _ _)).
Defined.

Lemma sample_firmware_single_line_fields (len : nat) (major minor : Z) :
  single_line_fields (sample_firmware len major minor).
Proof. repeat split. Defined.

Lemma summary_FirmwareRevision_line_witness :
  let bi := sample_firmware 0x18 1 22 in
  header_lines_not_indented sample_Header_String
  /\ single_line_fields bi
  /\ lines_labelled label_FirmwareRevision
       (summary_lines sample_Header_String W64 bi) =
     [ tab +++ "Firmware Revision: 1.22" ].
Proof.
  intros bi.
  split; [exact sample_header_lines_not_indented |].
  split; [apply sample_firmware_single_line_fields |].
  destruct (summary_FirmwareRevision_line sample_Header_String W64 bi
              sample_header_lines_not_indented
              (sample_firmware_single_line_fields _ _ _)) as (_ & H & _).
  apply H.
  - vm_compute. discriminate.
  - cbn. discriminate.
Defined.

Lemma summary_ROMSize_legacy_witness :
  let bi := sample_BIOSInformation 0x12 0x10 0 0xe800 4 6 in
  header_lines_not_indented sample_Header_String
  /\ single_line_fields bi
  /\ is_uint8 (ROMSize bi)
  /\ ROMSize bi <> 0xff
  /\ lines_labelled label_ROMSize
       (summary_lines sample_Header_String W64 bi) =
     [ tab +++ "ROM Size: 1 MB" ].
Proof.
  intros bi.
  assert (Hrange : is_uint8 (ROMSize bi)) by (unfold is_uint8; cbn; lia).
  assert (Hne : ROMSize bi <> 0xff) by (cbn; discriminate).
  split; [exact sample_header_lines_not_indented |].
  split; [apply sample_single_line_fields |].
  split; [exact Hrange |]. split; [exact Hne |].
  exact (summary_ROMSize_legacy sample_Header_String W64 bi
           sample_header_lines_not_indented
           (sample_single_line_fields _ _ _ _ _ _) Hrange Hne).
Defined.

Lemma summary_ROMSize_extended_witness :
  let bi := sample_BIOSInformation 0x1a 0xff 0x0800 0xe800 4 6 in
  header_lines_not_indented sample_Header_String
  /\ single_line_fields bi
  /\ is_uint16 (ExtendedROMSize bi)
  /\ ROMSize bi = 0xff
  /\ 0x1a <= bi_Len bi
  /\ lines_labelled label_ROMSize
       (summary_lines sample_Header_String W64 bi) =
     [ tab +++ "ROM Size: 2 GB" ].
Proof.
  intros bi.
  assert (Hext : is_uint16 (ExtendedROMSize bi)) by (unfold is_uint16; cbn; lia).
  assert (Hrom : ROMSize bi = 0xff) by reflexivity.
  assert (Hlen : 0x1a <= bi_Len bi) by (vm_compute; discriminate).
  split; [exact sample_header_lines_not_indented |].
  split; [apply sample_single_line_fields |].
  split; [exact Hext |]. split; [exact Hrom |]. split; [exact Hlen |].
  destruct (summary_ROMSize_extended sample_Header_String bi
              sample_header_lines_not_indented
              (sample_single_line_fields _ _ _ _ _ _) Hext Hrom Hlen)
    as (_ & _ & H & _).
  apply H; [reflexivity | vm_compute; discriminate].
Defined.

Lemma summary_RuntimeSize_to_1MB_witness :
  let bi := sample_BIOSInformation 0x16 0xff 0 0xe800 4 6 in
  header_lines_not_indented sample_Header_String
  /\ single_line_fields bi
  /\ is_uint16 (StartingAddressSegment bi)
  /\ StartingAddressSegment bi <> 0
  /\ exists k : Z,
       lines_labelled label_RuntimeSize
         (summary_lines sample_Header_String W64 bi) =
       [ tab +++ "Runtime Size: " +++ Fmt.d k +++ " kB" ]
       /\ 0 <= k <= 1023.
Proof.
  intros bi.
  assert (Hseg : is_uint16 (StartingAddressSegment bi))
    by (unfold is_uint16; cbn; lia).
  assert (Hnz : StartingAddressSegment bi <> 0) by (cbn; discriminate).
  split; [exact sample_header_lines_not_indented |].
  split; [apply sample_single_line_fields |].
  split; [exact Hseg |]. split; [exact Hnz |].
  destruct (summary_RuntimeSize_to_1MB sample_Header_String W64 bi
              sample_header_lines_not_indented
              (sample_single_line_fields _ _ _ _ _ _) Hseg Hnz)
    as (k & Hk & Hb & _).
  exists k. split; [exact Hk | exact Hb].
Defined.
